(** * Notebook toolbox: cells, documents, py-percent codec, outline, transforms

    A shallow embedding of [notebook_v1.py] and [notebook_v2.py].

    Conventions of the embedding.
    - A Python [str] is a [string]; each [ascii] stands for one character.
      Literals holding box-drawing characters are kept as their UTF-8 bytes:
      the program only concatenates them, and concatenation commutes with
      the encoding.  Slicing and indexing ([s[2:]], [version[0]]) count
      characters, so they agree with Python on ASCII text.
    - A Python exception is a value of [PyError]; a computation that may
      raise returns an [Outcome].
    - A [while] loop is a function with fuel; running out of fuel is [None]
      and is shown never to happen with the fuel the entry point supplies.
    - A Python object that is compared with the default [==] (identity)
      carries its identity in a field [oid].
    - The attributes of a cell are typed.  The constructors that read a
      dict of the generic representation return [None] on a value of a
      shape the attribute has no type for; nothing is stated about such
      inputs. *)

From Stdlib Require Import String Ascii List ZArith Lia Bool Arith.
From Stdlib Require Import DecimalString.
Import ListNotations.

Local Open Scope list_scope.
Local Open Scope string_scope.

(** ** Python values and exceptions *)

Inductive PyError : Type :=
| IndexError
| ValueError
| KeyError.

Inductive Outcome (A : Type) : Type :=
| Ok (a : A)
| Raise (e : PyError).

Arguments Ok {A} a.
Arguments Raise {A} e.

Definition bind {A B : Type} (m : Outcome A) (k : A -> Outcome B) : Outcome B :=
  match m with
  | Ok a => k a
  | Raise e => Raise e
  end.

Notation "x <- m ;; k" := (bind m (fun x => k))
  (at level 61, m at next level, right associativity).

(** The values an [execution_count] attribute holds in this program:
    an [int], [None], or a [str]. *)
Inductive PyVal : Type :=
| PyInt (n : Z)
| PyNone
| PyStr (s : string).

(** [str(v)], as an f-string renders it. *)
Definition str_of_Z (n : Z) : string := NilZero.string_of_int (Z.to_int n).

Definition py_str (v : PyVal) : string :=
  match v with
  | PyInt n => str_of_Z n
  | PyNone => "None"
  | PyStr s => s
  end.

(** ** Strings *)

Definition nl_char : ascii := Ascii.ascii_of_nat 10.
Definition nl : string := String nl_char EmptyString.

(** The double-quote character, as a [str]. *)
Definition dq : string := String (Ascii.ascii_of_nat 34) EmptyString.

(** [sep.join(items)] *)
Fixpoint join (sep : string) (items : list string) : string :=
  match items with
  | [] => EmptyString
  | [x] => x
  | x :: rest => x ++ sep ++ join sep rest
  end.

(** [s.split(sep)] for a one-character separator. *)
Fixpoint split (sep : ascii) (s : string) : list string :=
  match s with
  | EmptyString => [EmptyString]
  | String c rest =>
      if Ascii.eqb c sep then EmptyString :: split sep rest
      else match split sep rest with
           | l :: ls => String c l :: ls
           | [] => [String c EmptyString]
           end
  end.

(** [s[n:]] for [n >= 0]. *)
Fixpoint slice_from (n : nat) (s : string) : string :=
  match n, s with
  | O, _ => s
  | S n', String _ rest => slice_from n' rest
  | S _, EmptyString => EmptyString
  end.

(** The characters of a [str], as iterating over it yields them. *)
Fixpoint chars (s : string) : list string :=
  match s with
  | EmptyString => []
  | String c rest => String c EmptyString :: chars rest
  end.

(** [l[k]] for a list and an integer index, negative indices counting from
    the end. *)
Definition getitem {A : Type} (l : list A) (k : Z) : Outcome A :=
  let n := Z.of_nat (length l) in
  let k' := if (k <? 0)%Z then (k + n)%Z else k in
  if (k' <? 0)%Z then Raise IndexError
  else match nth_error l (Z.to_nat k') with
       | Some a => Ok a
       | None => Raise IndexError
       end.

(** [range(a, b)] *)
Definition range (a b : nat) : list nat := seq a (b - a).

(** A [for] loop whose body may raise. *)
Fixpoint for_each {A S : Type} (items : list A) (body : S -> A -> Outcome S)
  (s : S) : Outcome S :=
  match items with
  | [] => Ok s
  | x :: rest => s' <- body s x ;; for_each rest body s'
  end.

(** ** notebook_v2.py *)

Module V2.

(** The [source] attribute of a cell: a list of [str] as the loaders build
    it, or a single [str] as [Markdownizer.markdownize] stores it. *)
Inductive Source : Type :=
| SrcList (lines : list string)
| SrcStr (text : string).

(** What iterating over [cell.source] yields. *)
Definition items (s : Source) : list string :=
  match s with
  | SrcList l => l
  | SrcStr t => chars t
  end.

(** Instances of [MarkdownCell] and [CodeCell]. *)
Inductive Cell : Type :=
| MarkdownCell (oid : nat) (id : string) (source : Source)
| CodeCell (oid : nat) (id : string) (source : Source) (execution_count : PyVal).

Definition oid (c : Cell) : nat :=
  match c with
  | MarkdownCell o _ _ => o
  | CodeCell o _ _ _ => o
  end.

Definition id (c : Cell) : string :=
  match c with
  | MarkdownCell _ i _ => i
  | CodeCell _ i _ _ => i
  end.

Definition source (c : Cell) : Source :=
  match c with
  | MarkdownCell _ _ s => s
  | CodeCell _ _ s _ => s
  end.

(** [isinstance(cell, CodeCell)] and [isinstance(cell, MarkdownCell)] *)
Definition is_code (c : Cell) : bool :=
  match c with
  | CodeCell _ _ _ _ => true
  | MarkdownCell _ _ _ => false
  end.

Definition is_markdown (c : Cell) : bool := negb (is_code c).

Record Notebook : Type := mkNotebook {
  version : string;
  cells : list Cell
}.

(** *** PyPercentSerializer.to_py_percent *)

(** [cell == self.notebook.cells[0]]: no [__eq__] is defined, so this is
    identity of objects.  The loop body only runs on a non-empty list. *)
Definition is_first (nb : Notebook) (cell : Cell) : bool :=
  match cells nb with
  | first :: _ => Nat.eqb (oid cell) (oid first)
  | [] => false
  end.

Definition md_header : string := "# %% [markdown]".
Definition code_header : string := "# %%".

Definition to_py_percent_cell (nb : Notebook) (script : string) (cell : Cell)
  : string :=
  match cell with
  | MarkdownCell _ _ src =>
      if is_first nb cell then
        let script := script ++ (md_header ++ nl ++ "# ") in
        let script := script ++ join "# " (items src) in
        script ++ nl
      else
        let script := script ++ (nl ++ md_header ++ nl ++ "# ") in
        let script := script ++ join "# " (items src) in
        script ++ nl
  | CodeCell _ _ src _ =>
      if is_first nb cell then
        let script := script ++ (code_header ++ nl) in
        let script := script ++ join EmptyString (items src) in
        script ++ nl
      else
        let script := script ++ (nl ++ code_header ++ nl) in
        let script := script ++ join EmptyString (items src) in
        script ++ nl
  end.

Definition to_py_percent (nb : Notebook) : string :=
  fold_left (to_py_percent_cell nb) (cells nb) EmptyString.

(** *** Markdownizer.markdownize *)

(** The triple-quoted literal assigned to [new_source]; it is not an
    f-string. *)
Definition new_source : string :=
  "python" ++ nl ++ "                {cell.source}" ++ nl ++ "                ".

(** The loop state is the list [cells] and the identity of the next object
    to be created. *)
Definition markdownize_cell (st : list Cell * nat) (cell : Cell)
  : list Cell * nat :=
  let (cells, fresh) := st in
  if is_code cell then
    let cell := MarkdownCell fresh (id cell) (SrcStr new_source) in
    ((cells ++ [cell])%list, S fresh)
  else
    ((cells ++ [cell])%list, fresh).

Definition markdownize (fresh : nat) (nb : Notebook) : Notebook :=
  let version := version nb in
  let cells := fst (fold_left markdownize_cell (cells nb) ([], fresh)) in
  mkNotebook version cells.

(** *** MarkdownLesser.remove_markdown_cells *)

Definition remove_markdown_cell (cells : list Cell) (cell : Cell) : list Cell :=
  if is_code cell then (cells ++ [cell])%list else cells.

Definition remove_markdown_cells (nb : Notebook) : Notebook :=
  let version := version nb in
  let cells := fold_left remove_markdown_cell (cells nb) [] in
  mkNotebook version cells.

(** *** PyPercentLoader.load *)

(** The inner loop,
    [while lines[i+1] != '' and i+1 < len(lines): i += 1; source.append(lines[i][2:])],
    the same in both branches.  [lines[i+1]] is evaluated before the bound
    is tested. *)
Fixpoint read_body (fuel : nat) (lines : list string) (i : nat)
  (source : list string) : option (Outcome (nat * list string)) :=
  match fuel with
  | O => None
  | S fuel' =>
      match nth_error lines (i + 1) with
      | None => Some (Raise IndexError)
      | Some next =>
          if negb (String.eqb next EmptyString) && (i + 1 <? length lines)%nat then
            let i := i + 1 in
            match nth_error lines i with
            | None => Some (Raise IndexError)
            | Some line => read_body fuel' lines i (source ++ [slice_from 2 line])%list
            end
          else Some (Ok (i, source))
      end
  end.

(** The state of the outer loop: the index [i], the list [cells], and the
    identity of the next object to be created. *)
Fixpoint load_loop (fuel : nat) (lines : list string) (i : nat)
  (cells : list Cell) (fresh : nat) : option (Outcome (list Cell)) :=
  match fuel with
  | O => None
  | S fuel' =>
      if (i + 1 <? length lines)%nat then
        match nth_error lines i with
        | None => Some (Raise IndexError)
        | Some line =>
            if String.eqb line md_header then
              match read_body (S (length lines)) lines i [] with
              | None => None
              | Some (Raise e) => Some (Raise e)
              | Some (Ok (i, source)) =>
                  let cell := MarkdownCell fresh "id" (SrcList source) in
                  let cells := (cells ++ [cell])%list in
                  let i := i + 1 in
                  load_loop fuel' lines (i + 1) cells (S fresh)
              end
            else if String.eqb line code_header then
              match read_body (S (length lines)) lines i [] with
              | None => None
              | Some (Raise e) => Some (Raise e)
              | Some (Ok (i, source)) =>
                  let cell :=
                    CodeCell fresh "id" (SrcList source) (PyStr "execution_count") in
                  let cells := (cells ++ [cell])%list in
                  let i := i + 1 in
                  load_loop fuel' lines (i + 1) cells (S fresh)
              end
            else load_loop fuel' lines (i + 1) cells fresh
        end
      else Some (Ok cells)
  end.

(** [load], from the text read from the file; [fresh] is the identity of
    the first object the call creates. *)
Definition load (fresh : nat) (version : string) (data : string)
  : option (Outcome Notebook) :=
  let lines := split nl_char data in
  match load_loop (S (length lines)) lines 0 [] fresh with
  | None => None
  | Some (Raise e) => Some (Raise e)
  | Some (Ok cells) => Some (Ok (mkNotebook version cells))
  end.

End V2.

(** ** notebook_v1.py *)

Module V1.

#[local] Set Warnings "-register-all".

(** The generic key-value representation: what [load_ipynb] returns and
    [save_ipynb] takes.  A [dict] keeps its keys in insertion order. *)
Inductive Json : Type :=
| JNull
| JInt (n : Z)
| JStr (s : string)
| JList (l : list Json)
| JDict (d : list (string * Json)).

(** [d[k]] on the entries of a dict *)
Fixpoint dict_get (d : list (string * Json)) (k : string) : Outcome Json :=
  match d with
  | [] => Raise KeyError
  | (k', v) :: rest => if String.eqb k' k then Ok v else dict_get rest k
  end.

(** [d[k] = v] *)
Fixpoint dict_set (d : list (string * Json)) (k : string) (v : Json)
  : list (string * Json) :=
  match d with
  | [] => [(k, v)]
  | (k', v') :: rest =>
      if String.eqb k' k then (k', v) :: rest else (k', v') :: dict_set rest k v
  end.

(** [d[k].append(v)], for [d[k]] a list *)
Definition dict_append (d : list (string * Json)) (k : string) (v : Json)
  : list (string * Json) :=
  match dict_get d k with
  | Ok (JList l) => dict_set d k (JList (l ++ [v])%list)
  | _ => d
  end.

Definition json_of_val (v : PyVal) : Json :=
  match v with
  | PyInt n => JInt n
  | PyNone => JNull
  | PyStr s => JStr s
  end.

(** Instances of [MarkdownCell] and [CodeCell]; the attributes are those
    that [__init__] copies from the cell's dict, [type] being its
    ['cell_type']. *)
Inductive Cell : Type :=
| MarkdownCell (id : string) (source : list string) (type : string)
| CodeCell (execution_count : PyVal) (id : string) (source : list string)
    (type : string).

Record Notebook : Type := mkNotebook {
  version : string;
  cells : list Cell
}.

(** *** Serializer.serialize *)

(** [int(c)] for a one-character [str] *)
Definition int_of_char (c : ascii) : Outcome Z :=
  let n := nat_of_ascii c in
  if (48 <=? n)%nat && (n <=? 57)%nat then Ok (Z.of_nat (n - 48))
  else Raise ValueError.

Definition serialize_cell (dic : list (string * Json)) (cell : Cell)
  : list (string * Json) :=
  match cell with
  | CodeCell execution_count id source type =>
      let new_cell :=
        JDict [("cell_type", JStr type);
               ("execution_count", json_of_val execution_count);
               ("id", JStr id);
               ("metadata", JDict []);
               ("outputs", JList []);
               ("source", JList (map JStr source))] in
      dict_append dic "cells" new_cell
  | MarkdownCell id source type =>
      let new_cell :=
        JDict [("cell_type", JStr type);
               ("id", JStr id);
               ("metadata", JDict []);
               ("source", JList (map JStr source))] in
      dict_append dic "cells" new_cell
  end.

Definition serialize (nb : Notebook) : Outcome Json :=
  let dic := [] in
  let dic := dict_set dic "cells" (JList []) in
  let dic := fold_left serialize_cell (cells nb) dic in
  let dic := dict_set dic "metadata" (JDict []) in
  c0 <- getitem (list_ascii_of_string (version nb)) 0 ;;
  major <- int_of_char c0 ;;
  let dic := dict_set dic "nbformat" (JInt major) in
  c2 <- getitem (list_ascii_of_string (version nb)) 2 ;;
  minor <- int_of_char c2 ;;
  let dic := dict_set dic "nbformat_minor" (JInt minor) in
  Ok (JDict dic).

(** *** Outliner.outline *)

Definition outline_cell (script : string) (cell : Cell) : Outcome string :=
  match cell with
  | MarkdownCell id source _ =>
      let script := script ++ (nl ++ "└─▶ Markdown cell #" ++ id ++ nl) in
      if (1 <? length source)%nat then
        first <- getitem source 0 ;;
        let script := script ++ ("    ┌  " ++ first) in
        script <- for_each (range 1 (length source - 1))
                    (fun script k =>
                       line <- getitem source (Z.of_nat k) ;;
                       Ok (script ++ ("    │  " ++ line)))
                    script ;;
        last <- getitem source (-1) ;;
        Ok (script ++ ("    └  " ++ last))
      else
        first <- getitem source 0 ;;
        Ok (script ++ ("    | " ++ first ++ nl))
  | CodeCell execution_count id source _ =>
      let script :=
        script ++ (nl ++ "└─▶ Code cell #" ++ id ++ " (" ++ py_str execution_count
                   ++ ")" ++ nl) in
      if (1 <? length source)%nat then
        first <- getitem source 0 ;;
        let script := script ++ ("    ┌  " ++ first) in
        script <- for_each (range 1 (length source))
                    (fun script k =>
                       line <- getitem source (Z.of_nat k) ;;
                       Ok (script ++ ("    │  " ++ line)))
                    script ;;
        last <- getitem source (-1) ;;
        Ok (script ++ ("    └  " ++ last))
      else
        first <- getitem source 0 ;;
        Ok (script ++ ("    | " ++ first))
  end.

Definition outline (nb : Notebook) : Outcome string :=
  let script := "Jupyter Notebook v" ++ version nb in
  for_each (cells nb) outline_cell script.

(** *** The constructors: CodeCell, MarkdownCell, Notebook *)

(** The constructors read a dict of the generic representation.  The
    attributes of [Cell] are typed: a value of another shape than the
    notebook format gives the key is outside the embedding, and the
    computation is then [None]. *)
Definition bind_read {A B : Type} (m : option (Outcome A))
  (k : A -> option (Outcome B)) : option (Outcome B) :=
  match m with
  | Some (Ok a) => k a
  | Some (Raise e) => Some (Raise e)
  | None => None
  end.

Definition typed {A : Type} (o : option A) : option (Outcome A) :=
  match o with
  | Some a => Some (Ok a)
  | None => None
  end.

(** [j[k]] for a [str] key *)
Definition subscript (j : Json) (k : string) : option (Outcome Json) :=
  match j with
  | JDict d => Some (dict_get d k)
  | _ => None
  end.

Definition as_str (j : Json) : option string :=
  match j with
  | JStr s => Some s
  | _ => None
  end.

Fixpoint as_strs (l : list Json) : option (list string) :=
  match l with
  | [] => Some []
  | j :: rest =>
      match as_str j, as_strs rest with
      | Some s, Some ss => Some (s :: ss)
      | _, _ => None
      end
  end.

Definition as_lines (j : Json) : option (list string) :=
  match j with
  | JList l => as_strs l
  | _ => None
  end.

Definition as_list (j : Json) : option (list Json) :=
  match j with
  | JList l => Some l
  | _ => None
  end.

Definition as_val (j : Json) : option PyVal :=
  match j with
  | JInt n => Some (PyInt n)
  | JNull => Some PyNone
  | JStr s => Some (PyStr s)
  | _ => None
  end.

(** [f"{j}"] *)
Definition format (j : Json) : option string :=
  match j with
  | JInt n => Some (str_of_Z n)
  | JStr s => Some s
  | JNull => Some "None"
  | _ => None
  end.

(** [j == s] for a [str] [s]: values of another type are not equal to it. *)
Definition eq_str (j : Json) (s : string) : bool :=
  match j with
  | JStr s' => String.eqb s' s
  | _ => false
  end.

(** [CodeCell.__init__] *)
Definition CodeCell_init (ipynb : Json) : option (Outcome Cell) :=
  bind_read (subscript ipynb "execution_count") (fun execution_count =>
  bind_read (subscript ipynb "id") (fun id =>
  bind_read (subscript ipynb "source") (fun source =>
  bind_read (subscript ipynb "cell_type") (fun type =>
  bind_read (typed (as_val execution_count)) (fun execution_count =>
  bind_read (typed (as_str id)) (fun id =>
  bind_read (typed (as_lines source)) (fun source =>
  bind_read (typed (as_str type)) (fun type =>
  Some (Ok (CodeCell execution_count id source type)))))))))).

(** [MarkdownCell.__init__] *)
Definition MarkdownCell_init (ipynb : Json) : option (Outcome Cell) :=
  bind_read (subscript ipynb "id") (fun id =>
  bind_read (subscript ipynb "source") (fun source =>
  bind_read (subscript ipynb "cell_type") (fun type =>
  bind_read (typed (as_str id)) (fun id =>
  bind_read (typed (as_lines source)) (fun source =>
  bind_read (typed (as_str type)) (fun type =>
  Some (Ok (MarkdownCell id source type)))))))).

(** The body of the loop of [Notebook.__init__]: two [if] statements, each
    reading [cell['cell_type']]. *)
Definition init_cell (list_of_cells : list Cell) (cell : Json)
  : option (Outcome (list Cell)) :=
  bind_read (subscript cell "cell_type") (fun t =>
  bind_read
    (if eq_str t "markdown" then
       bind_read (MarkdownCell_init cell) (fun c =>
       Some (Ok (list_of_cells ++ [c])%list))
     else Some (Ok list_of_cells)) (fun list_of_cells =>
  bind_read (subscript cell "cell_type") (fun t =>
  if eq_str t "code" then
    bind_read (CodeCell_init cell) (fun c =>
    Some (Ok (list_of_cells ++ [c])%list))
  else Some (Ok list_of_cells)))).

Fixpoint init_cells (cells : list Json) (list_of_cells : list Cell)
  : option (Outcome (list Cell)) :=
  match cells with
  | [] => Some (Ok list_of_cells)
  | cell :: rest =>
      bind_read (init_cell list_of_cells cell) (fun list_of_cells =>
      init_cells rest list_of_cells)
  end.

(** [Notebook.__init__] *)
Definition Notebook_init (ipynb : Json) : option (Outcome Notebook) :=
  bind_read (subscript ipynb "nbformat") (fun nbformat =>
  bind_read (subscript ipynb "nbformat_minor") (fun nbformat_minor =>
  bind_read (typed (format nbformat)) (fun major =>
  bind_read (typed (format nbformat_minor)) (fun minor =>
  let version := major ++ "." ++ minor in
  bind_read (subscript ipynb "cells") (fun cells =>
  bind_read (typed (as_list cells)) (fun cells =>
  bind_read (init_cells cells []) (fun list_of_cells =>
  Some (Ok (mkNotebook version list_of_cells))))))))).

End V1.

(** ** notebook_v2.py: NotebookLoader *)

Module NotebookLoader.

Section Load.

(** [get_format_version] and [get_cells] come from the module
    [notebook_v0], which is not among the sources at hand: the version
    [str] of a loaded notebook, and the list of its cell dicts. *)
Variable get_format_version : V1.Json -> Outcome string.
Variable get_cells : V1.Json -> Outcome (list V1.Json).

(** The ['source'] of a cell dict: a list of [str], or one [str]. *)
Definition as_source (j : V1.Json) : option V2.Source :=
  match j with
  | V1.JList l =>
      match V1.as_strs l with
      | Some lines => Some (V2.SrcList lines)
      | None => None
      end
  | V1.JStr s => Some (V2.SrcStr s)
  | _ => None
  end.

(** The body of the loop; the state is the list [cells] and the identity
    of the next object to be created. *)
Definition load_cell (st : list V2.Cell * nat) (cell : V1.Json)
  : option (Outcome (list V2.Cell * nat)) :=
  let (cells, fresh) := st in
  V1.bind_read (V1.subscript cell "cell_type") (fun t =>
  if V1.eq_str t "markdown" then
    V1.bind_read (V1.subscript cell "id") (fun id =>
    V1.bind_read (V1.subscript cell "source") (fun source =>
    V1.bind_read (V1.typed (V1.as_str id)) (fun id =>
    V1.bind_read (V1.typed (as_source source)) (fun source =>
    let cell := V2.MarkdownCell fresh id source in
    Some (Ok ((cells ++ [cell])%list, S fresh))))))
  else
    V1.bind_read (V1.subscript cell "cell_type") (fun t =>
    if V1.eq_str t "code" then
      V1.bind_read (V1.subscript cell "id") (fun id =>
      V1.bind_read (V1.subscript cell "source") (fun source =>
      V1.bind_read (V1.subscript cell "execution_count") (fun execution_count =>
      V1.bind_read (V1.typed (V1.as_str id)) (fun id =>
      V1.bind_read (V1.typed (as_source source)) (fun source =>
      V1.bind_read (V1.typed (V1.as_val execution_count)) (fun execution_count =>
      let cell := V2.CodeCell fresh id source execution_count in
      Some (Ok ((cells ++ [cell])%list, S fresh))))))))
    else Some (Ok (cells, fresh)))).

Fixpoint load_cells (cs : list V1.Json) (st : list V2.Cell * nat)
  : option (Outcome (list V2.Cell * nat)) :=
  match cs with
  | [] => Some (Ok st)
  | cell :: rest => V1.bind_read (load_cell st cell) (fun st => load_cells rest st)
  end.

(** [load], from the dict that [load_ipynb] returned for the file. *)
Definition load (fresh : nat) (ipynb : V1.Json) : option (Outcome V2.Notebook) :=
  V1.bind_read (Some (get_format_version ipynb)) (fun version =>
  V1.bind_read (Some (get_cells ipynb)) (fun cs =>
  V1.bind_read (load_cells cs ([], fresh)) (fun st =>
  Some (Ok (V2.mkNotebook version (fst st)))))).

End Load.

End NotebookLoader.

(** ** The documents of the docstrings *)

Definition print_hello : string := "print(" ++ dq ++ "Hello world!" ++ dq ++ ")".

(** The first two cells of [samples/hello-world.ipynb], as [NotebookLoader]
    builds them: every source line but the last of a cell keeps its
    line terminator. *)
Definition hello_world : V2.Notebook :=
  V2.mkNotebook "4.5"
    [V2.MarkdownCell 0 "a9541506"
       (V2.SrcList ["Hello world!" ++ nl; "============" ++ nl;
                    "Print `Hello world!`:"]);
     V2.CodeCell 1 "b777420a" (V2.SrcList [print_hello]) (PyInt 1)].

(** The notebook of the [Notebook] docstring of [notebook_v2.py]: the same
    cells with source lines that carry no terminator. *)
Definition hello_world_bare : V2.Notebook :=
  V2.mkNotebook "4.5"
    [V2.MarkdownCell 0 "a9541506"
       (V2.SrcList ["Hello world!"; "============"; "Print `Hello world!`:"]);
     V2.CodeCell 1 "b777420a" (V2.SrcList [print_hello]) (PyInt 1)].

(** The same two documents as [notebook_v1.py] holds them. *)
Definition hello_world_v1 : V1.Notebook :=
  V1.mkNotebook "4.5"
    [V1.MarkdownCell "a9541506"
       ["Hello world!" ++ nl; "============" ++ nl; "Print `Hello world!`:"]
       "markdown";
     V1.CodeCell (PyInt 1) "b777420a" [print_hello] "code"].

Definition hello_world_bare_v1 : V1.Notebook :=
  V1.mkNotebook "4.5"
    [V1.MarkdownCell "a9541506"
       ["Hello world!"; "============"; "Print `Hello world!`:"] "markdown";
     V1.CodeCell (PyInt 1) "b777420a" [print_hello] "code"].

(** ** The layouts the specification describes *)

Inductive CellKind : Type := Markdown | Code.

(** One block of the percent format: the header line, then one line per
    source line, prefixed with [# ] in a markdown block. *)
Definition spec_block (b : CellKind * list string) : list string :=
  match b with
  | (Markdown, body) => "# %% [markdown]" :: map (fun l => "# " ++ l) body
  | (Code, body) => "# %%" :: body
  end.

(** The lines of the whole text: the blocks in order, one blank line
    between two consecutive blocks, none before the first, none after the
    last. *)
Fixpoint spec_layout (blocks : list (CellKind * list string)) : list string :=
  match blocks with
  | [] => []
  | [b] => spec_block b
  | b :: rest => (spec_block b ++ [EmptyString] ++ spec_layout rest)%list
  end.

(** A text from its lines, each ended by the line terminator. *)
Fixpoint unlines (ls : list string) : string :=
  match ls with
  | [] => EmptyString
  | l :: rest => l ++ nl ++ unlines rest
  end.

Definition spec_py_percent (blocks : list (CellKind * list string)) : string :=
  unlines (spec_layout blocks).

(** The blocks of a document whose source lines are taken as they are. *)
Definition block_of (c : V2.Cell) : CellKind * list string :=
  match c with
  | V2.MarkdownCell _ _ src => (Markdown, V2.items src)
  | V2.CodeCell _ _ src _ => (Code, V2.items src)
  end.

(** Source lines as the notebook file holds them: every line but the last
    is followed by its terminator. *)
Fixpoint terminated (ls : list string) : list string :=
  match ls with
  | [] => []
  | [l] => [l]
  | l :: rest => (l ++ nl) :: terminated rest
  end.

(** A cell with a non-empty source in that convention, and its block. *)
Inductive ipynb_cell : V2.Cell -> CellKind * list string -> Prop :=
| ipynb_markdown (o : nat) (i : string) (ls : list string) :
    ls <> [] ->
    ipynb_cell (V2.MarkdownCell o i (V2.SrcList (terminated ls))) (Markdown, ls)
| ipynb_code (o : nat) (i : string) (ls : list string) (e : PyVal) :
    ls <> [] ->
    ipynb_cell (V2.CodeCell o i (V2.SrcList (terminated ls)) e) (Code, ls).

(** A line of text: a [str] without a line terminator. *)
Fixpoint is_line (s : string) : bool :=
  match s with
  | EmptyString => true
  | String c rest => negb (Ascii.eqb c nl_char) && is_line rest
  end.

(** The fields [PyPercentLoader.load] gives every cell it builds. *)
Definition placeholder_cell (c : V2.Cell) : Prop :=
  match c with
  | V2.MarkdownCell _ i _ => i = "id"
  | V2.CodeCell _ i _ e => i = "id" /\ e = PyStr "execution_count"
  end.

(** The dict [Serializer.serialize] builds for a cell. *)
Definition cell_dict (cell : V1.Cell) : V1.Json :=
  match cell with
  | V1.CodeCell execution_count id source type =>
      V1.JDict [("cell_type", V1.JStr type);
                ("execution_count", V1.json_of_val execution_count);
                ("id", V1.JStr id);
                ("metadata", V1.JDict []);
                ("outputs", V1.JList []);
                ("source", V1.JList (map V1.JStr source))]
  | V1.MarkdownCell id source type =>
      V1.JDict [("cell_type", V1.JStr type);
                ("id", V1.JStr id);
                ("metadata", V1.JDict []);
                ("source", V1.JList (map V1.JStr source))]
  end.

(** The character of a decimal digit. *)
Definition digit (d : nat) : ascii := Ascii.ascii_of_nat (48 + d).

(** The outline of section 4.4 for the two-cell document, line by line as
    the specification words it. *)
Definition spec_outline_hello : string :=
  "Jupyter Notebook v4.5" ++ nl ++
  "└─▶ Markdown cell #a9541506" ++ nl ++
  "┌  Hello world!" ++ nl ++
  "│  ============" ++ nl ++
  "└  Print `Hello world!`:" ++ nl ++
  "└─▶ Code cell #b777420a (1)" ++ nl ++
  "| " ++ print_hello.

(** The same outline with the four-space indentation of the [Outliner]
    docstring. *)
Definition docstring_outline_hello : string :=
  "Jupyter Notebook v4.5" ++ nl ++
  "└─▶ Markdown cell #a9541506" ++ nl ++
  "    ┌  Hello world!" ++ nl ++
  "    │  ============" ++ nl ++
  "    └  Print `Hello world!`:" ++ nl ++
  "└─▶ Code cell #b777420a (1)" ++ nl ++
  "    | " ++ print_hello.

(** ** Auxiliary definitions for the statements below *)

(** The outer loop of [PyPercentLoader.load] run from the first line of
    [lines], with the fuel [load] gives it. *)
Definition run_load (lines : list string) (cells : list V2.Cell) (fresh : nat)
  : option (Outcome (list V2.Cell)) :=
  V2.load_loop (S (length lines)) lines 0 cells fresh.

Definition is_header (line : string) : bool :=
  String.eqb line V2.md_header || String.eqb line V2.code_header.

(** The cells [PyPercentLoader.load] builds from the blocks of a text: the
    body lines of a markdown block without their [# ] prefix, those of a
    code block without their first two characters. *)
Fixpoint reparse (fresh : nat) (blocks : list (CellKind * list string))
  : list V2.Cell :=
  match blocks with
  | [] => []
  | (Markdown, body) :: rest =>
      V2.MarkdownCell fresh "id" (V2.SrcList body) :: reparse (S fresh) rest
  | (Code, body) :: rest =>
      V2.CodeCell fresh "id" (V2.SrcList (map (slice_from 2) body))
        (PyStr "execution_count") :: reparse (S fresh) rest
  end.

(** The body of a block has no empty line when it is a markdown block, or
    a code block without an empty source line. *)
Definition closed_block (b : CellKind * list string) : bool :=
  match b with
  | (Markdown, _) => true
  | (Code, body) => forallb (fun l => negb (String.eqb l EmptyString)) body
  end.

(** A markdown cell whose source is one line of text. *)
Definition one_line_markdown (c : V2.Cell) : bool :=
  match c with
  | V2.MarkdownCell _ _ (V2.SrcList [l]) => is_line l
  | _ => false
  end.

(** A cell whose source holds a line. *)
Definition has_source (c : V1.Cell) : bool :=
  match c with
  | V1.MarkdownCell _ (_ :: _) _ => true
  | V1.CodeCell _ _ (_ :: _) _ => true
  | _ => false
  end.

(** A cell whose [type] attribute is the tag of its class. *)
Definition well_tagged (c : V1.Cell) : bool :=
  match c with
  | V1.MarkdownCell _ _ t => String.eqb t "markdown"
  | V1.CodeCell _ _ _ t => String.eqb t "code"
  end.

(** A cell dict that [Notebook.__init__] keeps: its ['cell_type'] is
    ['markdown'] or ['code']. *)
Definition supported (cell : V1.Json) : bool :=
  match V1.subscript cell "cell_type" with
  | Some (Ok t) => V1.eq_str t "markdown" || V1.eq_str t "code"
  | _ => false
  end.

(** The tag and the id of a cell dict. *)
Definition tagged_code (cell : V1.Json) : bool :=
  match V1.subscript cell "cell_type" with
  | Some (Ok t) => V1.eq_str t "code"
  | _ => false
  end.

Definition dict_id (cell : V1.Json) : string :=
  match V1.subscript cell "id" with
  | Some (Ok (V1.JStr s)) => s
  | _ => EmptyString
  end.

(** Concatenation of a list of [str]. *)
Definition cat (ls : list string) : string :=
  fold_right String.append EmptyString ls.

(** ** Strings and lists *)

Lemma append_assoc (a b c : string) : (a ++ b) ++ c = a ++ (b ++ c).
Proof.
  induction a as [|x a IH]; simpl; [reflexivity | now rewrite IH].
Qed.

Lemma append_nil_r (a : string) : a ++ EmptyString = a.
Proof.
  induction a as [|x a IH]; simpl; [reflexivity | now rewrite IH].
Qed.

Lemma fold_left_app_acc {A B : Type} (f : list B -> A -> list B)
  (g : A -> list B) :
  (forall acc x, f acc x = (acc ++ g x)%list) ->
  forall xs acc, fold_left f xs acc = (acc ++ flat_map g xs)%list.
Proof.
  intros Hf xs; induction xs as [|x xs IH]; intros acc; simpl.
  - now rewrite app_nil_r.
  - rewrite IH, Hf, <- app_assoc. reflexivity.
Qed.

(** ** Strip-markdown *)

Lemma remove_markdown_cells_filter (cs : list V2.Cell) :
  fold_left V2.remove_markdown_cell cs [] = filter V2.is_code cs.
Proof.
  rewrite (fold_left_app_acc V2.remove_markdown_cell
             (fun c => if V2.is_code c then [c] else [])).
  - simpl. induction cs as [|c cs IH]; simpl; [reflexivity|].
    destruct (V2.is_code c); simpl; now rewrite IH.
  - intros acc c. unfold V2.remove_markdown_cell.
    destruct (V2.is_code c); [reflexivity | now rewrite app_nil_r].
Qed.

Lemma filter_idem {A : Type} (p : A -> bool) (l : list A) :
  filter p (filter p l) = filter p l.
Proof.
  induction l as [|x l IH]; simpl; [reflexivity|].
  destruct (p x) eqn:E; simpl; [rewrite E, IH|]; auto.
Qed.

(** C9. [MarkdownLesser.remove_markdown_cells] returns a document with the
    version of its input whose cells are exactly the code cells of the
    input in their original order; no markdown cell is left, and applying
    the transform to its own result changes nothing. *)
Theorem remove_markdown_cells_code_only (nb : V2.Notebook) :
  V2.version (V2.remove_markdown_cells nb) = V2.version nb /\
  V2.cells (V2.remove_markdown_cells nb) = filter V2.is_code (V2.cells nb) /\
  (forall c, In c (V2.cells (V2.remove_markdown_cells nb)) ->
             V2.is_markdown c = false) /\
  V2.remove_markdown_cells (V2.remove_markdown_cells nb) =
  V2.remove_markdown_cells nb.
Proof.
  unfold V2.remove_markdown_cells; simpl.
  rewrite !remove_markdown_cells_filter, filter_idem.
  repeat split.
  intros c Hc. apply filter_In in Hc. destruct Hc as [_ Hc].
  unfold V2.is_markdown. now rewrite Hc.
Qed.

(** ** Percent-format serialization *)

Lemma unlines_app (a b : list string) :
  unlines (a ++ b)%list = unlines a ++ unlines b.
Proof.
  induction a as [|x a IH]; simpl; [reflexivity|].
  now rewrite IH, !append_assoc.
Qed.

Lemma join_terminated_markdown (ls : list string) :
  ls <> [] ->
  "# " ++ join "# " (terminated ls) ++ nl = unlines (map (fun l => "# " ++ l) ls).
Proof.
  induction ls as [|l rest IH]; intros Hne; [congruence|].
  destruct rest as [|l' rest'].
  - reflexivity.
  - change (terminated (l :: l' :: rest')) with ((l ++ nl) :: terminated (l' :: rest')).
    change (join "# " ((l ++ nl) :: terminated (l' :: rest')))
      with (match terminated (l' :: rest') with
            | [] => l ++ nl
            | _ :: _ => (l ++ nl) ++ "# " ++ join "# " (terminated (l' :: rest'))
            end).
    assert (Hl' : l' :: rest' <> []) by congruence.
    specialize (IH Hl').
    destruct (terminated (l' :: rest')) as [|t ts] eqn:Et.
    + destruct rest'; discriminate Et.
    + change (map (fun l0 => "# " ++ l0) (l :: l' :: rest'))
        with (("# " ++ l) :: map (fun l0 => "# " ++ l0) (l' :: rest')).
      change (unlines (("# " ++ l) :: map (fun l0 => "# " ++ l0) (l' :: rest')))
        with (("# " ++ l) ++ nl ++ unlines (map (fun l0 => "# " ++ l0) (l' :: rest'))).
      rewrite <- IH. now rewrite !append_assoc.
Qed.

Lemma join_terminated_code (ls : list string) :
  ls <> [] ->
  join EmptyString (terminated ls) ++ nl = unlines ls.
Proof.
  induction ls as [|l rest IH]; intros Hne; [congruence|].
  destruct rest as [|l' rest'].
  - reflexivity.
  - change (terminated (l :: l' :: rest')) with ((l ++ nl) :: terminated (l' :: rest')).
    change (join EmptyString ((l ++ nl) :: terminated (l' :: rest')))
      with (match terminated (l' :: rest') with
            | [] => l ++ nl
            | _ :: _ =>
                (l ++ nl) ++ EmptyString ++ join EmptyString (terminated (l' :: rest'))
            end).
    assert (Hl' : l' :: rest' <> []) by congruence.
    specialize (IH Hl').
    destruct (terminated (l' :: rest')) as [|t ts] eqn:Et.
    + destruct rest'; discriminate Et.
    + change (unlines (l :: l' :: rest')) with (l ++ nl ++ unlines (l' :: rest')).
      rewrite <- IH. simpl. now rewrite !append_assoc.
Qed.

(** What one iteration of the serializer's loop appends for a cell in the
    notebook file's convention. *)
Lemma to_py_percent_cell_block (nb : V2.Notebook) (script : string)
  (c : V2.Cell) (b : CellKind * list string) :
  ipynb_cell c b ->
  V2.to_py_percent_cell nb script c =
  script ++ (if V2.is_first nb c then EmptyString else nl) ++ unlines (spec_block b).
Proof.
  intros Hc. destruct Hc as [o i ls Hne | o i ls e Hne].
  - unfold V2.to_py_percent_cell.
    pose proof (join_terminated_markdown ls Hne) as J.
    destruct (V2.is_first nb _); cbn [V2.items spec_block unlines];
      unfold V2.md_header; rewrite <- J; rewrite !append_assoc; reflexivity.
  - unfold V2.to_py_percent_cell.
    pose proof (join_terminated_code ls Hne) as J.
    destruct (V2.is_first nb _); cbn [V2.items spec_block unlines];
      unfold V2.code_header; rewrite <- J; rewrite !append_assoc; reflexivity.
Qed.

(** The cells after the first, none of which is the first object. *)
Lemma to_py_percent_rest (nb : V2.Notebook) (cs : list V2.Cell)
  (blocks : list (CellKind * list string)) :
  Forall2 ipynb_cell cs blocks ->
  (forall c, In c cs -> V2.is_first nb c = false) ->
  forall script,
    fold_left (V2.to_py_percent_cell nb) cs script =
    script ++ fold_right (fun b acc => nl ++ unlines (spec_block b) ++ acc)
                EmptyString blocks.
Proof.
  induction 1 as [|c b cs blocks Hc Hcs IH]; intros Hnf script; simpl.
  - now rewrite append_nil_r.
  - rewrite IH by (intros c' Hc'; apply Hnf; now right).
    rewrite (to_py_percent_cell_block nb script c b Hc).
    rewrite (Hnf c (or_introl eq_refl)).
    now rewrite !append_assoc.
Qed.

Lemma spec_py_percent_cons (b : CellKind * list string)
  (blocks : list (CellKind * list string)) :
  spec_py_percent (b :: blocks) =
  unlines (spec_block b) ++
  fold_right (fun b acc => nl ++ unlines (spec_block b) ++ acc) EmptyString blocks.
Proof.
  unfold spec_py_percent. revert b.
  induction blocks as [|b' blocks IH]; intros b.
  - simpl. now rewrite append_nil_r.
  - change (spec_layout (b :: b' :: blocks))
      with (spec_block b ++ [EmptyString] ++ spec_layout (b' :: blocks))%list.
    rewrite !unlines_app, IH. simpl. reflexivity.
Qed.

(** C5, amended.  For a document whose cells are pairwise distinct objects,
    each with a non-empty source in which every line but the last carries
    its line terminator, the percent-format serialization is, block after
    block in document order: the header line, then one line per source
    line ([# ]-prefixed in a markdown block, as it is in a code block), one
    blank line between consecutive blocks, none before the first header
    and none after the last line. *)
Theorem to_py_percent_layout (v : string) (cs : list V2.Cell)
  (blocks : list (CellKind * list string)) :
  Forall2 ipynb_cell cs blocks ->
  NoDup (map V2.oid cs) ->
  V2.to_py_percent (V2.mkNotebook v cs) = spec_py_percent blocks.
Proof.
  intros Hcs Hnd. unfold V2.to_py_percent.
  destruct Hcs as [|c b cs blocks Hc Hcs]; [reflexivity|].
  cbn [V2.cells fold_left].
  rewrite (to_py_percent_rest _ cs blocks Hcs).
  - rewrite (to_py_percent_cell_block _ _ c b Hc).
    unfold V2.is_first; cbn [V2.cells]. rewrite Nat.eqb_refl.
    rewrite spec_py_percent_cons. reflexivity.
  - intros c' Hc'. unfold V2.is_first; cbn [V2.cells].
    apply Nat.eqb_neq. intros E.
    inversion Hnd as [|x l Hnotin _]; subst.
    apply Hnotin. rewrite <- E. now apply in_map.
Qed.

(** The first two cells of the sample notebook satisfy the hypotheses. *)
Lemma to_py_percent_layout_witness :
  V2.to_py_percent hello_world =
  spec_py_percent
    [(Markdown, ["Hello world!"; "============"; "Print `Hello world!`:"]);
     (Code, [print_hello])].
Proof.
  apply (to_py_percent_layout "4.5" (V2.cells hello_world)).
  - apply Forall2_cons.
    + apply (ipynb_markdown 0 "a9541506"
               ["Hello world!"; "============"; "Print `Hello world!`:"]).
      discriminate.
    + apply Forall2_cons; [|apply Forall2_nil].
      apply (ipynb_code 1 "b777420a" [print_hello] (PyInt 1)). discriminate.
  - simpl. repeat constructor; simpl; intuition lia.
Defined.

(** C5, as stated, fails on three documents: the notebook of the docstring
    with terminator-free source lines (the three markdown lines come out on
    one line), a code cell with an empty source (two blank lines follow its
    header), and a list that holds its first cell twice (no blank line
    before the second occurrence). *)
Lemma to_py_percent_layout_counterexample :
  V2.to_py_percent hello_world_bare <>
    spec_py_percent (map block_of (V2.cells hello_world_bare)) /\
  (let nb := V2.mkNotebook "4.5"
               [V2.CodeCell 0 "c0" (V2.SrcList []) PyNone;
                V2.CodeCell 1 "c1" (V2.SrcList ["x = 1"]) PyNone] in
   V2.to_py_percent nb <> spec_py_percent (map block_of (V2.cells nb))) /\
  (let c := V2.MarkdownCell 0 "m0" (V2.SrcList ["a"]) in
   let nb := V2.mkNotebook "4.5" [c; c] in
   V2.to_py_percent nb <> spec_py_percent (map block_of (V2.cells nb))).
Proof.
  repeat split; apply String.eqb_neq; vm_compute; reflexivity.
Qed.

(** What the serializer returns on the terminator-free document. *)
Lemma to_py_percent_hello_world_bare :
  V2.to_py_percent hello_world_bare =
  "# %% [markdown]" ++ nl ++
  "# Hello world!# ============# Print `Hello world!`:" ++ nl ++
  nl ++
  "# %%" ++ nl ++
  print_hello ++ nl.
Proof. vm_compute. reflexivity. Qed.

(** ** Percent-format parsing: the reference executions *)

(** C1.  Re-parsing the serialization of the sample document does not give
    its source lines back: the markdown lines lose their terminators and
    the code line loses its first two characters, so that a second
    serialization differs from the first.  The same holds from the
    terminator-free document, whose three markdown lines come back as
    one. *)
Theorem load_to_py_percent_hello_world :
  (exists nb,
     V2.load 2 "4.5" (V2.to_py_percent hello_world) = Some (Ok nb) /\
     V2.cells nb =
       [V2.MarkdownCell 2 "id"
          (V2.SrcList ["Hello world!"; "============"; "Print `Hello world!`:"]);
        V2.CodeCell 3 "id"
          (V2.SrcList ["int(" ++ dq ++ "Hello world!" ++ dq ++ ")"])
          (PyStr "execution_count")] /\
     String.eqb (V2.to_py_percent nb) (V2.to_py_percent hello_world) = false) /\
  V2.load 2 "4.5" (V2.to_py_percent hello_world_bare) =
    Some (Ok (V2.mkNotebook "4.5"
      [V2.MarkdownCell 2 "id"
         (V2.SrcList ["Hello world!# ============# Print `Hello world!`:"]);
       V2.CodeCell 3 "id"
         (V2.SrcList ["int(" ++ dq ++ "Hello world!" ++ dq ++ ")"])
         (PyStr "execution_count")])).
Proof.
  split; [|vm_compute; reflexivity].
  eexists. split; [vm_compute; reflexivity|].
  split; vm_compute; reflexivity.
Qed.

(** C2.  The body line of a code block is not taken verbatim: the code
    branch appends [lines[i][2:]], so [print(1)] is read as [int(1)]. *)
Theorem load_code_line_sliced :
  V2.load 0 "4.5" ("# %%" ++ nl ++ "print(1)" ++ nl) =
  Some (Ok (V2.mkNotebook "4.5"
    [V2.CodeCell 0 "id" (V2.SrcList ["int(1)"]) (PyStr "execution_count")])).
Proof. vm_compute. reflexivity. Qed.

(** C3, as stated, fails: a line that is no header where a header is
    expected raises nothing, and the document of the block that follows is
    returned. *)
Lemma load_unrecognised_line_counterexample :
  V2.load 0 "4.5" ("import os" ++ nl ++ "# %% [markdown]" ++ nl ++ "# Title" ++ nl) =
  Some (Ok (V2.mkNotebook "4.5"
    [V2.MarkdownCell 0 "id" (V2.SrcList ["Title"])])).
Proof. vm_compute. reflexivity. Qed.

(** C4.  When the input ends inside a block body, with no line terminator
    after the last body line, [lines[i+1]] is read past the end and
    [IndexError] is raised, in a code block and in a markdown block alike.
    With the final terminator the same input is parsed. *)
Theorem load_open_block_at_end :
  V2.load 0 "4.5" ("# %%" ++ nl ++ "x = 1") = Some (Raise IndexError) /\
  V2.load 0 "4.5" ("# %% [markdown]" ++ nl ++ "# Title") = Some (Raise IndexError) /\
  V2.load 0 "4.5" ("# %% [markdown]" ++ nl ++ "# Title" ++ nl) =
    Some (Ok (V2.mkNotebook "4.5"
      [V2.MarkdownCell 0 "id" (V2.SrcList ["Title"])])).
Proof. repeat split; vm_compute; reflexivity. Qed.

(** C6.  The code cell the parser builds has the [str] ['execution_count']
    as its [execution_count], neither an [int] nor [None], and every cell
    has the [str] ['id'] as its [id]. *)
Theorem load_placeholder_fields :
  V2.load 0 "4.5"
    ("# %% [markdown]" ++ nl ++ "# Title" ++ nl ++ nl ++ "# %%" ++ nl ++ nl) =
  Some (Ok (V2.mkNotebook "4.5"
    [V2.MarkdownCell 0 "id" (V2.SrcList ["Title"]);
     V2.CodeCell 1 "id" (V2.SrcList []) (PyStr "execution_count")])).
Proof. vm_compute. reflexivity. Qed.

(** ** Percent-format parsing: the loops *)

Lemma read_body_unfold (fuel : nat) (lines : list string) (i : nat)
  (source : list string) :
  V2.read_body (S fuel) lines i source =
  match nth_error lines (i + 1) with
  | None => Some (Raise IndexError)
  | Some next =>
      if negb (String.eqb next EmptyString) && (i + 1 <? length lines)%nat then
        match nth_error lines (i + 1) with
        | None => Some (Raise IndexError)
        | Some line =>
            V2.read_body fuel lines (i + 1) (source ++ [slice_from 2 line])%list
        end
      else Some (Ok (i, source))
  end.
Proof. reflexivity. Qed.

Lemma read_body_index (fuel : nat) (lines : list string) :
  forall i source i' source',
    V2.read_body fuel lines i source = Some (Ok (i', source')) -> i <= i'.
Proof.
  induction fuel as [|fuel IH]; intros i source i' source' H.
  - discriminate.
  - rewrite read_body_unfold in H.
    destruct (nth_error lines (i + 1)) as [next|]; [|discriminate].
    destruct (negb (next =? EmptyString) && (i + 1 <? length lines)%nat).
    + apply IH in H. lia.
    + injection H as <- _. lia.
Qed.

(** The inner loop always ends with the fuel [load_loop] gives it. *)
Lemma read_body_total (fuel : nat) (lines : list string) :
  forall i source,
    length lines - i < fuel -> V2.read_body fuel lines i source <> None.
Proof.
  induction fuel as [|fuel IH]; intros i source Hf; [lia|].
  rewrite read_body_unfold.
  destruct (nth_error lines (i + 1)) as [next|] eqn:En; [|discriminate].
  assert (i + 1 < length lines) by (apply nth_error_Some; congruence).
  destruct (negb (next =? EmptyString) && (i + 1 <? length lines)%nat);
    [|discriminate].
  apply IH. lia.
Qed.

Lemma load_loop_unfold (fuel : nat) (lines : list string) (i : nat)
  (cells : list V2.Cell) (fresh : nat) :
  V2.load_loop (S fuel) lines i cells fresh =
  if (i + 1 <? length lines)%nat then
    match nth_error lines i with
    | None => Some (Raise IndexError)
    | Some line =>
        if String.eqb line V2.md_header then
          match V2.read_body (S (length lines)) lines i [] with
          | None => None
          | Some (Raise e) => Some (Raise e)
          | Some (Ok (i, source)) =>
              V2.load_loop fuel lines (i + 1 + 1)
                (cells ++ [V2.MarkdownCell fresh "id" (V2.SrcList source)])%list
                (S fresh)
          end
        else if String.eqb line V2.code_header then
          match V2.read_body (S (length lines)) lines i [] with
          | None => None
          | Some (Raise e) => Some (Raise e)
          | Some (Ok (i, source)) =>
              V2.load_loop fuel lines (i + 1 + 1)
                (cells ++ [V2.CodeCell fresh "id" (V2.SrcList source)
                             (PyStr "execution_count")])%list
                (S fresh)
          end
        else V2.load_loop fuel lines (i + 1) cells fresh
    end
  else Some (Ok cells).
Proof. reflexivity. Qed.

(** Any fuel above the number of lines left gives the same result. *)
Lemma load_loop_fuel (lines : list string) :
  forall f1 f2 i cells fresh,
    length lines - i < f1 -> length lines - i < f2 ->
    V2.load_loop f1 lines i cells fresh = V2.load_loop f2 lines i cells fresh.
Proof.
  induction f1 as [|f1 IH]; intros f2 i cells fresh H1 H2; [lia|].
  destruct f2 as [|f2]; [lia|].
  rewrite !load_loop_unfold.
  destruct (i + 1 <? length lines)%nat eqn:E; [|reflexivity].
  apply Nat.ltb_lt in E.
  destruct (nth_error lines i) as [line|]; [|reflexivity].
  destruct (line =? V2.md_header); [|destruct (line =? V2.code_header)].
  - destruct (V2.read_body (S (length lines)) lines i []) as [[[i' src]|e]|] eqn:R;
      try reflexivity.
    apply read_body_index in R. apply IH; lia.
  - destruct (V2.read_body (S (length lines)) lines i []) as [[[i' src]|e]|] eqn:R;
      try reflexivity.
    apply read_body_index in R. apply IH; lia.
  - apply IH; lia.
Qed.

(** The outer loop always ends with the fuel [load] gives it. *)
Lemma load_loop_total (lines : list string) :
  forall fuel i cells fresh,
    length lines - i < fuel -> V2.load_loop fuel lines i cells fresh <> None.
Proof.
  induction fuel as [|fuel IH]; intros i cells fresh Hf; [lia|].
  rewrite load_loop_unfold.
  destruct (i + 1 <? length lines)%nat eqn:E; [|discriminate].
  apply Nat.ltb_lt in E.
  destruct (nth_error lines i) as [line|]; [|discriminate].
  destruct (line =? V2.md_header); [|destruct (line =? V2.code_header)].
  - destruct (V2.read_body (S (length lines)) lines i []) as [[[i' src]|e]|] eqn:R.
    + apply read_body_index in R. apply IH; lia.
    + discriminate.
    + exfalso. revert R. apply read_body_total. lia.
  - destruct (V2.read_body (S (length lines)) lines i []) as [[[i' src]|e]|] eqn:R.
    + apply read_body_index in R. apply IH; lia.
    + discriminate.
    + exfalso. revert R. apply read_body_total. lia.
  - apply IH; lia.
Qed.

Lemma split_not_nil (sep : ascii) (s : string) : split sep s <> [].
Proof.
  destruct s as [|c s]; simpl; [discriminate|].
  destruct (Ascii.eqb c sep); [discriminate|].
  destruct (split sep s); discriminate.
Qed.

(** [load] returns or raises on every text: it never runs out of fuel. *)
Lemma load_total (fresh : nat) (version data : string) :
  V2.load fresh version data <> None.
Proof.
  unfold V2.load.
  destruct (V2.load_loop _ _ 0 [] fresh) as [[cells|e]|] eqn:L; try discriminate.
  exfalso. revert L. apply load_loop_total. lia.
Qed.

(** The inner loop gives the same result with any fuel above the number
    of lines left. *)
Lemma read_body_fuel (lines : list string) :
  forall f1 f2 i source,
    length lines - i < f1 -> length lines - i < f2 ->
    V2.read_body f1 lines i source = V2.read_body f2 lines i source.
Proof.
  induction f1 as [|f1 IH]; intros f2 i source H1 H2; [lia|].
  destruct f2 as [|f2]; [lia|].
  rewrite !read_body_unfold.
  destruct (nth_error lines (i + 1)) as [next|] eqn:En; [|reflexivity].
  assert (i + 1 < length lines) by (apply nth_error_Some; congruence).
  destruct (negb (next =? EmptyString) && (i + 1 <? length lines)%nat);
    [|reflexivity].
  apply IH; lia.
Qed.

(** One more line in front moves every index by one. *)
Lemma read_body_shift (x : string) (lines : list string) :
  forall fuel i source,
    V2.read_body fuel (x :: lines) (S i) source =
    match V2.read_body fuel lines i source with
    | Some (Ok (i', source')) => Some (Ok (S i', source'))
    | Some (Raise e) => Some (Raise e)
    | None => None
    end.
Proof.
  induction fuel as [|fuel IH]; intros i source; [reflexivity|].
  rewrite !read_body_unfold.
  change (S i + 1) with (S (i + 1)).
  change (nth_error (x :: lines) (S (i + 1))) with (nth_error lines (i + 1)).
  change (S (i + 1) <? length (x :: lines))%nat
    with (i + 1 <? length lines)%nat.
  destruct (nth_error lines (i + 1)) as [next|]; [|reflexivity].
  destruct (negb (next =? EmptyString) && (i + 1 <? length lines)%nat);
    [|reflexivity].
  apply IH.
Qed.

Lemma load_loop_shift (x : string) (lines : list string) :
  forall fuel i cells fresh,
    V2.load_loop fuel (x :: lines) (S i) cells fresh =
    V2.load_loop fuel lines i cells fresh.
Proof.
  induction fuel as [|fuel IH]; intros i cells fresh; [reflexivity|].
  rewrite !load_loop_unfold.
  change (S i + 1) with (S (i + 1)).
  change (S (i + 1) <? length (x :: lines))%nat
    with (i + 1 <? length lines)%nat.
  change (nth_error (x :: lines) (S i)) with (nth_error lines i).
  destruct (i + 1 <? length lines)%nat eqn:E; [|reflexivity].
  destruct (nth_error lines i) as [line|]; [|reflexivity].
  rewrite read_body_shift.
  rewrite (read_body_fuel lines (S (length (x :: lines))) (S (length lines)))
    by (simpl; lia).
  destruct (line =? V2.md_header); [|destruct (line =? V2.code_header)].
  - destruct (V2.read_body (S (length lines)) lines i []) as [[[i' src]|e]|];
      try reflexivity.
    change (S i' + 1 + 1) with (S (i' + 1 + 1)). apply IH.
  - destruct (V2.read_body (S (length lines)) lines i []) as [[[i' src]|e]|];
      try reflexivity.
    change (S i' + 1 + 1) with (S (i' + 1 + 1)). apply IH.
  - apply IH.
Qed.

Lemma split_line (line data : string) :
  is_line line = true ->
  split nl_char (line ++ nl ++ data) = line :: split nl_char data.
Proof.
  induction line as [|c line IH]; intros Hl.
  - reflexivity.
  - simpl in Hl. apply andb_prop in Hl. destruct Hl as [Hc Hl].
    apply negb_true_iff in Hc.
    change (split nl_char (String c line ++ nl ++ data))
      with (if Ascii.eqb c nl_char
            then EmptyString :: split nl_char (line ++ nl ++ data)
            else match split nl_char (line ++ nl ++ data) with
                 | l :: ls => String c l :: ls
                 | [] => [String c EmptyString]
                 end).
    rewrite Hc, (IH Hl). reflexivity.
Qed.

(** X22.  At the level of texts: a first line that is no header is
    ignored, whatever follows it; the result is that of parsing the rest of
    the text. *)
Theorem load_ignores_first_line (fresh : nat) (version line data : string) :
  is_line line = true ->
  line <> V2.md_header ->
  line <> V2.code_header ->
  V2.load fresh version (line ++ nl ++ data) = V2.load fresh version data.
Proof.
  intros Hl Hm Hc. unfold V2.load.
  rewrite (split_line line data Hl).
  pose proof (split_not_nil nl_char data) as Hne.
  set (lines := split nl_char data) in *.
  rewrite (load_loop_unfold (S (length lines)) (line :: lines) 0).
  destruct lines as [|l0 lines'] eqn:El; [congruence|]. rewrite <- El.
  replace (0 + 1 <? length (line :: lines))%nat with true
    by (rewrite El; reflexivity).
  cbn [nth_error].
  apply String.eqb_neq in Hm, Hc. rewrite Hm, Hc.
  change (0 + 1) with 1.
  rewrite load_loop_shift. reflexivity.
Qed.

Lemma load_ignores_first_line_witness :
  V2.load 0 "4.5"
    ("#!/usr/bin/env python" ++ nl ++ ("# %%" ++ nl ++ "x = 1" ++ nl)) =
  V2.load 0 "4.5" ("# %%" ++ nl ++ "x = 1" ++ nl).
Proof.
  apply (load_ignores_first_line 0 "4.5" "#!/usr/bin/env python").
  - reflexivity.
  - discriminate.
  - discriminate.
Defined.

(** C3, amended.  Where the parser expects a header, a line that is
    neither [# %% [markdown]] nor [# %%] is passed over: no error is
    raised for it, no cell is built from it, and the parse goes on from the
    next line with the cells built so far, so that the document returned is
    built from the remaining recognised blocks. *)
Theorem load_loop_skips_unrecognised (lines : list string) (i : nat)
  (line : string) (cells : list V2.Cell) (fresh fuel : nat) :
  nth_error lines i = Some line ->
  line <> V2.md_header ->
  line <> V2.code_header ->
  length lines - i < fuel ->
  V2.load_loop fuel lines i cells fresh =
    V2.load_loop fuel lines (i + 1) cells fresh /\
  V2.load_loop fuel lines i cells fresh <> None.
Proof.
  intros Hl Hm Hc Hf. split; [|now apply load_loop_total].
  destruct fuel as [|fuel]; [lia|].
  rewrite (load_loop_unfold fuel lines i).
  rewrite Hl.
  apply String.eqb_neq in Hm, Hc. rewrite Hm, Hc.
  destruct (i + 1 <? length lines)%nat eqn:E.
  - apply Nat.ltb_lt in E. apply load_loop_fuel; lia.
  - apply Nat.ltb_ge in E. rewrite load_loop_unfold.
    replace (i + 1 + 1 <? length lines)%nat with false; [reflexivity|].
    symmetry. apply Nat.ltb_ge. lia.
Qed.

(** The unrecognised first line of a three-line text. *)
Lemma load_loop_skips_unrecognised_witness :
  V2.load_loop 5 ["import os"; "# %% [markdown]"; "# Title"; EmptyString] 0 [] 0 =
    V2.load_loop 5 ["import os"; "# %% [markdown]"; "# Title"; EmptyString] (0 + 1) [] 0 /\
  V2.load_loop 5 ["import os"; "# %% [markdown]"; "# Title"; EmptyString] 0 [] 0
    <> None.
Proof.
  apply (load_loop_skips_unrecognised
           ["import os"; "# %% [markdown]"; "# Title"; EmptyString] 0 "import os").
  - reflexivity.
  - discriminate.
  - discriminate.
  - simpl. lia.
Defined.

(** Every cell the parser builds has the placeholder fields, on every
    input. *)
Lemma load_loop_placeholders (lines : list string) :
  forall fuel i cells fresh cells',
    Forall placeholder_cell cells ->
    V2.load_loop fuel lines i cells fresh = Some (Ok cells') ->
    Forall placeholder_cell cells'.
Proof.
  induction fuel as [|fuel IH]; intros i cells fresh cells' Hc H;
    [discriminate|].
  rewrite load_loop_unfold in H.
  destruct (i + 1 <? length lines)%nat; [|injection H as <-; assumption].
  destruct (nth_error lines i) as [line|]; [|discriminate].
  destruct (line =? V2.md_header); [|destruct (line =? V2.code_header)].
  - destruct (V2.read_body (S (length lines)) lines i []) as [[[i' src]|e]|];
      try discriminate.
    apply IH in H; [assumption|].
    apply Forall_app. split; [assumption|]. repeat constructor.
  - destruct (V2.read_body (S (length lines)) lines i []) as [[[i' src]|e]|];
      try discriminate.
    apply IH in H; [assumption|].
    apply Forall_app. split; [assumption|]. repeat constructor.
  - apply IH in H; assumption.
Qed.

Lemma load_placeholders (fresh : nat) (version data : string)
  (nb : V2.Notebook) :
  V2.load fresh version data = Some (Ok nb) ->
  Forall placeholder_cell (V2.cells nb).
Proof.
  unfold V2.load. intros H.
  destruct (V2.load_loop _ _ 0 [] fresh) as [[cells|e]|] eqn:L;
    try discriminate.
  injection H as <-. cbn [V2.cells].
  apply (load_loop_placeholders _ _ _ _ _ _ (Forall_nil _) L).
Qed.

(** A block body that runs to the last line is read past the end. *)
Lemma read_body_open_raises (lines : list string) :
  forall fuel i source,
    (forall j, i < j -> nth_error lines j <> Some EmptyString) ->
    length lines - i < fuel ->
    V2.read_body fuel lines i source = Some (Raise IndexError).
Proof.
  induction fuel as [|fuel IH]; intros i source Hopen Hf; [lia|].
  rewrite read_body_unfold.
  destruct (nth_error lines (i + 1)) as [next|] eqn:En; [|reflexivity].
  assert (Hlt : i + 1 < length lines) by (apply nth_error_Some; congruence).
  assert (Hnext : next <> EmptyString).
  { intros ->. apply (Hopen (i + 1)); [lia | exact En]. }
  apply String.eqb_neq in Hnext. rewrite Hnext.
  apply Nat.ltb_lt in Hlt. rewrite Hlt. cbn [negb andb].
  apply IH; [|apply Nat.ltb_lt in Hlt; lia].
  intros j Hj. apply Hopen. lia.
Qed.

(** ** Codify-to-markdown *)

(** C8.  The markdown cell that replaces a code cell keeps its [id] and
    has the fixed text [new_source] as its source, whatever the source of
    the code cell was: the text holds the characters [{cell.source}], not
    the lines of the cell, and no fence.  Markdown cells are kept as they
    are and the version is kept. *)
Theorem markdownize_code_cell (fresh : nat) (v : string) (o : nat)
  (i : string) (src : V2.Source) (e : PyVal) (m : V2.Cell) :
  V2.is_code m = false ->
  V2.markdownize fresh (V2.mkNotebook v [m; V2.CodeCell o i src e]) =
    V2.mkNotebook v [m; V2.MarkdownCell fresh i (V2.SrcStr V2.new_source)] /\
  String.index 0 "```" V2.new_source = None /\
  String.index 0 "{cell.source}" V2.new_source = Some 23.
Proof.
  intros Hm. split; [|split; vm_compute; reflexivity].
  unfold V2.markdownize. cbn [V2.cells V2.version fold_left].
  unfold V2.markdownize_cell at 2. rewrite Hm.
  reflexivity.
Qed.

(** The sample document: its code line is not in the result. *)
Lemma markdownize_code_cell_witness :
  V2.markdownize 2 hello_world =
    V2.mkNotebook "4.5"
      [V2.MarkdownCell 0 "a9541506"
         (V2.SrcList ["Hello world!" ++ nl; "============" ++ nl;
                      "Print `Hello world!`:"]);
       V2.MarkdownCell 2 "b777420a" (V2.SrcStr V2.new_source)] /\
  String.index 0 "```" V2.new_source = None /\
  String.index 0 "{cell.source}" V2.new_source = Some 23.
Proof.
  apply (markdownize_code_cell 2 "4.5" 1 "b777420a" (V2.SrcList [print_hello])
           (PyInt 1)).
  reflexivity.
Defined.

(** The parts of the transform that do not depend on the new source: the
    version, the number of cells, the kind and the ids of the result. *)
Lemma markdownize_cells_acc (cs : list V2.Cell) :
  forall acc fresh,
    map V2.id (fst (fold_left V2.markdownize_cell cs (acc, fresh))) =
      (map V2.id acc ++ map V2.id cs)%list /\
    (Forall (fun c => V2.is_code c = false) acc ->
     Forall (fun c => V2.is_code c = false)
       (fst (fold_left V2.markdownize_cell cs (acc, fresh)))).
Proof.
  induction cs as [|c cs IH]; intros acc fresh; simpl.
  - rewrite app_nil_r. auto.
  - destruct (V2.is_code c) eqn:E.
    + destruct (IH (acc ++ [V2.MarkdownCell fresh (V2.id c) (V2.SrcStr V2.new_source)])%list
                  (S fresh)) as [Hid Hmd].
      split.
      * rewrite Hid, map_app, <- app_assoc. reflexivity.
      * intros Hacc. apply Hmd. apply Forall_app. split; [assumption|].
        repeat constructor.
    + destruct (IH (acc ++ [c])%list fresh) as [Hid Hmd].
      split.
      * rewrite Hid, map_app, <- app_assoc. reflexivity.
      * intros Hacc. apply Hmd. apply Forall_app. split; [assumption|].
        repeat constructor. assumption.
Qed.

Lemma markdownize_shape (fresh : nat) (nb : V2.Notebook) :
  V2.version (V2.markdownize fresh nb) = V2.version nb /\
  map V2.id (V2.cells (V2.markdownize fresh nb)) = map V2.id (V2.cells nb) /\
  length (V2.cells (V2.markdownize fresh nb)) = length (V2.cells nb) /\
  Forall (fun c => V2.is_code c = false) (V2.cells (V2.markdownize fresh nb)).
Proof.
  unfold V2.markdownize; cbn [V2.version V2.cells].
  destruct (markdownize_cells_acc (V2.cells nb) [] fresh) as [Hid Hmd].
  repeat split.
  - exact Hid.
  - rewrite <- (length_map V2.id), Hid. simpl. now rewrite length_map.
  - apply Hmd. constructor.
Qed.

(** ** Serializer *)

(** C7.  With a two-digit component in the version the serializer does
    not return the major and minor numbers: [version[2]] of ["10.23"] is
    the dot and [int] raises [ValueError], whatever the cells; for
    ["4.10"] the minor number returned is 1. *)
Theorem serialize_two_digit_version :
  (forall cells, V1.serialize (V1.mkNotebook "10.23" cells) = Raise ValueError) /\
  V1.serialize (V1.mkNotebook "4.10" []) =
    Ok (V1.JDict [("cells", V1.JList []); ("metadata", V1.JDict []);
                  ("nbformat", V1.JInt 4); ("nbformat_minor", V1.JInt 1)]).
Proof.
  split; [intros cells|]; reflexivity.
Qed.

(** The sample document, whose version has one-digit components. *)
Lemma serialize_hello_world :
  V1.serialize hello_world_v1 =
  Ok (V1.JDict
        [("cells",
          V1.JList
            [V1.JDict
               [("cell_type", V1.JStr "markdown");
                ("id", V1.JStr "a9541506");
                ("metadata", V1.JDict []);
                ("source",
                 V1.JList [V1.JStr ("Hello world!" ++ nl);
                           V1.JStr ("============" ++ nl);
                           V1.JStr "Print `Hello world!`:"])];
             V1.JDict
               [("cell_type", V1.JStr "code");
                ("execution_count", V1.JInt 1);
                ("id", V1.JStr "b777420a");
                ("metadata", V1.JDict []);
                ("outputs", V1.JList []);
                ("source", V1.JList [V1.JStr print_hello])]]);
         ("metadata", V1.JDict []);
         ("nbformat", V1.JInt 4);
         ("nbformat_minor", V1.JInt 5)]).
Proof. vm_compute. reflexivity. Qed.

Lemma int_of_char_digit (d : nat) :
  d < 10 -> V1.int_of_char (digit d) = Ok (Z.of_nat d).
Proof.
  intros Hd.
  do 10 (destruct d as [|d]; [reflexivity|]). lia.
Qed.

Lemma serialize_cells_acc (cs : list V1.Cell) :
  forall acc,
    fold_left V1.serialize_cell cs [("cells", V1.JList acc)] =
    [("cells", V1.JList (acc ++ map cell_dict cs)%list)].
Proof.
  induction cs as [|c cs IH]; intros acc; simpl.
  - now rewrite app_nil_r.
  - replace (V1.serialize_cell [("cells", V1.JList acc)] c)
      with [("cells", V1.JList (acc ++ [cell_dict c])%list)]
      by (destruct c; reflexivity).
    rewrite IH, <- app_assoc. reflexivity.
Qed.

(** What the serializer does return: the first and the third character of
    the version, read as digits, whatever follows them; the cells are as
    section 4.6 says. *)
Lemma serialize_one_digit (major minor : nat) (sep : ascii) (rest : string)
  (cs : list V1.Cell) :
  major < 10 -> minor < 10 ->
  V1.serialize
    (V1.mkNotebook (String (digit major) (String sep (String (digit minor) rest)))
       cs) =
  Ok (V1.JDict [("cells", V1.JList (map cell_dict cs));
                ("metadata", V1.JDict []);
                ("nbformat", V1.JInt (Z.of_nat major));
                ("nbformat_minor", V1.JInt (Z.of_nat minor))]).
Proof.
  intros Ha Hb. unfold V1.serialize. cbn [V1.cells V1.version].
  change (V1.dict_set [] "cells" (V1.JList [])) with [("cells", V1.JList [])].
  rewrite serialize_cells_acc.
  cbn [list_ascii_of_string].
  change (getitem (digit major :: sep :: digit minor :: list_ascii_of_string rest) 0)
    with (Ok (A := ascii) (digit major)).
  change (getitem (digit major :: sep :: digit minor :: list_ascii_of_string rest) 2)
    with (Ok (A := ascii) (digit minor)).
  cbn [bind]. rewrite (int_of_char_digit major Ha). cbn [bind].
  rewrite (int_of_char_digit minor Hb). cbn [bind].
  reflexivity.
Qed.

(** ** Outline *)

(** C10, as stated, fails: with the three markdown source lines given
    without terminators the outline has them on one line, and is neither
    the layout of section 4.4 nor that of the docstring. *)
Lemma outline_hello_world_counterexample :
  V1.outline hello_world_bare_v1 =
    Ok ("Jupyter Notebook v4.5" ++ nl ++
        "└─▶ Markdown cell #a9541506" ++ nl ++
        "    ┌  Hello world!    │  ============    └  Print `Hello world!`:" ++ nl ++
        "└─▶ Code cell #b777420a (1)" ++ nl ++
        "    | " ++ print_hello) /\
  V1.outline hello_world_bare_v1 <> Ok spec_outline_hello /\
  V1.outline hello_world_bare_v1 <> Ok docstring_outline_hello.
Proof.
  split; [vm_compute; reflexivity|].
  split; intros H; vm_compute in H; discriminate H.
Qed.

(** C10, amended.  For the two-cell document at version 4.5 whose markdown
    source lines are [Hello world!] and [============], each followed by
    its line terminator, and [Print `Hello world!`:], and whose code cell
    has the one source line [print("Hello world!")] and execution count 1,
    the outline is exactly: the title line, the markdown cell line, the
    three source lines each on its own line, indented by four spaces and
    prefixed by the three connectors, the code cell line, and the source
    line indented by four spaces after [| ]. *)
Theorem outline_hello_world :
  V1.outline hello_world_v1 = Ok docstring_outline_hello.
Proof. vm_compute. reflexivity. Qed.

(** ** Percent-format parsing: texts and their lines *)

Lemma load_loop_prefix (pre lines : list string) :
  forall fuel i cells fresh,
    V2.load_loop fuel (pre ++ lines)%list (length pre + i) cells fresh =
    V2.load_loop fuel lines i cells fresh.
Proof.
  induction pre as [|x pre IH]; intros fuel i cells fresh.
  - reflexivity.
  - change ((x :: pre) ++ lines)%list with (x :: (pre ++ lines)%list).
    change (length (x :: pre) + i) with (S (length pre + i)).
    rewrite load_loop_shift. apply IH.
Qed.

Lemma run_load_nil (cells : list V2.Cell) (fresh : nat) :
  run_load [] cells fresh = Some (Ok cells).
Proof. reflexivity. Qed.

Lemma run_load_single (x : string) (cells : list V2.Cell) (fresh : nat) :
  run_load [x] cells fresh = Some (Ok cells).
Proof. reflexivity. Qed.

Lemma is_header_false (line : string) :
  is_header line = false ->
  String.eqb line V2.md_header = false /\ String.eqb line V2.code_header = false.
Proof. unfold is_header. intros H. now apply orb_false_elim in H. Qed.

Lemma run_load_skip (x : string) (rest : list string) (cells : list V2.Cell)
  (fresh : nat) :
  is_header x = false ->
  run_load (x :: rest) cells fresh = run_load rest cells fresh.
Proof.
  intros Hx. apply is_header_false in Hx. destruct Hx as [Hm Hc].
  destruct rest as [|y rest]; [reflexivity|].
  unfold run_load. rewrite load_loop_unfold.
  change (0 + 1 <? length (x :: y :: rest))%nat with true.
  cbn [nth_error]. rewrite Hm, Hc.
  change (0 + 1) with 1. rewrite load_loop_shift. reflexivity.
Qed.

(** The inner loop on a body closed by a blank line. *)
Lemma read_body_closed (body rest : list string) :
  forall fuel x source,
    Forall (fun l => l <> EmptyString) body ->
    length body < fuel ->
    V2.read_body fuel (x :: body ++ EmptyString :: rest)%list 0 source =
    Some (Ok (length body, (source ++ map (slice_from 2) body)%list)).
Proof.
  induction body as [|b body IH]; intros fuel x source Hne Hf.
  - destruct fuel as [|fuel]; [simpl in Hf; lia|].
    rewrite read_body_unfold. simpl. now rewrite app_nil_r.
  - destruct fuel as [|fuel]; [simpl in Hf; lia|].
    rewrite read_body_unfold.
    change (nth_error (x :: (b :: body) ++ EmptyString :: rest)%list (0 + 1))
      with (Some b).
    inversion Hne as [|b' body' Hb Hbody]; subst.
    apply String.eqb_neq in Hb. rewrite Hb.
    change (0 + 1 <? length (x :: (b :: body) ++ EmptyString :: rest)%list)%nat
      with true.
    cbn [negb andb].
    change (x :: (b :: body) ++ EmptyString :: rest)%list
      with (x :: (b :: body ++ EmptyString :: rest)%list).
    change (0 + 1) with 1.
    rewrite read_body_shift.
    rewrite (IH fuel b (source ++ [slice_from 2 b])%list Hbody)
      by (simpl in Hf; lia).
    simpl. now rewrite <- app_assoc.
Qed.

Lemma run_load_continue (pre rest : list string) (cells : list V2.Cell)
  (fresh : nat) :
  V2.load_loop (length (pre ++ rest)%list) (pre ++ rest)%list (length pre)
    cells fresh = run_load rest cells fresh \/ pre = [].
Proof.
  destruct pre as [|x pre]; [now right|]. left.
  rewrite <- (Nat.add_0_r (length (x :: pre))).
  rewrite load_loop_prefix. unfold run_load.
  apply load_loop_fuel; rewrite ?length_app; simpl; lia.
Qed.

Lemma run_load_markdown_block (body rest : list string)
  (cells : list V2.Cell) (fresh : nat) :
  Forall (fun l => l <> EmptyString) body ->
  run_load (V2.md_header :: body ++ EmptyString :: rest)%list cells fresh =
  run_load rest
    (cells ++ [V2.MarkdownCell fresh "id" (V2.SrcList (map (slice_from 2) body))])%list
    (S fresh).
Proof.
  intros Hne. unfold run_load at 1. rewrite load_loop_unfold.
  replace (0 + 1 <? length (V2.md_header :: body ++ EmptyString :: rest)%list)%nat
    with true
    by (symmetry; apply Nat.ltb_lt; simpl; rewrite length_app; simpl; lia).
  cbn [nth_error]. rewrite String.eqb_refl.
  rewrite (read_body_closed body rest _ V2.md_header [] Hne)
    by (simpl; rewrite length_app; simpl; lia).
  cbn [app].
  destruct (run_load_continue (V2.md_header :: body ++ [EmptyString])%list rest
              (cells ++ [V2.MarkdownCell fresh "id"
                           (V2.SrcList (map (slice_from 2) body))])%list
              (S fresh)) as [H|H]; [|discriminate H].
  rewrite <- H. f_equal.
  - simpl. rewrite <- app_assoc. reflexivity.
  - simpl. rewrite <- app_assoc. reflexivity.
  - simpl. rewrite length_app. simpl. lia.
Qed.

Lemma run_load_code_block (body rest : list string)
  (cells : list V2.Cell) (fresh : nat) :
  Forall (fun l => l <> EmptyString) body ->
  run_load (V2.code_header :: body ++ EmptyString :: rest)%list cells fresh =
  run_load rest
    (cells ++ [V2.CodeCell fresh "id" (V2.SrcList (map (slice_from 2) body))
                 (PyStr "execution_count")])%list
    (S fresh).
Proof.
  intros Hne. unfold run_load at 1. rewrite load_loop_unfold.
  replace (0 + 1 <? length (V2.code_header :: body ++ EmptyString :: rest)%list)%nat
    with true
    by (symmetry; apply Nat.ltb_lt; simpl; rewrite length_app; simpl; lia).
  cbn [nth_error].
  change (V2.code_header =? V2.md_header) with false.
  rewrite String.eqb_refl.
  rewrite (read_body_closed body rest _ V2.code_header [] Hne)
    by (simpl; rewrite length_app; simpl; lia).
  cbn [app].
  destruct (run_load_continue (V2.code_header :: body ++ [EmptyString])%list rest
              (cells ++ [V2.CodeCell fresh "id"
                           (V2.SrcList (map (slice_from 2) body))
                           (PyStr "execution_count")])%list
              (S fresh)) as [H|H]; [|discriminate H].
  rewrite <- H. f_equal.
  - simpl. rewrite <- app_assoc. reflexivity.
  - simpl. rewrite <- app_assoc. reflexivity.
  - simpl. rewrite length_app. simpl. lia.
Qed.

(** X1.  [PyPercentLoader.load] ends on every text: both [while] loops
    advance [i] at each turn, so the call returns a notebook or raises. *)
Theorem load_terminates (fresh : nat) (version data : string) :
  exists r, V2.load fresh version data = Some r.
Proof.
  destruct (V2.load fresh version data) as [r|] eqn:E.
  - now exists r.
  - exfalso. revert E. apply load_total.
Qed.

(** X2.  Whatever the text, every cell of a notebook that
    [PyPercentLoader.load] returns has the [str] ['id'] as its id, and every
    code cell has the [str] ['execution_count'] as its execution count. *)
Theorem load_cells_are_placeholders (fresh : nat) (version data : string)
  (nb : V2.Notebook) :
  V2.load fresh version data = Some (Ok nb) ->
  Forall placeholder_cell (V2.cells nb).
Proof. apply load_placeholders. Qed.

Lemma load_cells_are_placeholders_witness :
  Forall placeholder_cell
    [V2.CodeCell 0 "id" (V2.SrcList ["int(1)"]) (PyStr "execution_count")].
Proof.
  apply (load_cells_are_placeholders 0 "4.5" ("# %%" ++ nl ++ "print(1)" ++ nl)
           (V2.mkNotebook "4.5"
              [V2.CodeCell 0 "id" (V2.SrcList ["int(1)"])
                 (PyStr "execution_count")])).
  vm_compute. reflexivity.
Defined.

Lemma run_load_no_header (lines : list string) (cells : list V2.Cell)
  (fresh : nat) :
  forallb (fun l => negb (is_header l)) lines = true ->
  run_load lines cells fresh = Some (Ok cells).
Proof.
  induction lines as [|x lines IH]; intros H.
  - reflexivity.
  - simpl in H. apply andb_prop in H. destruct H as [Hx H].
    apply negb_true_iff in Hx.
    rewrite (run_load_skip x lines cells fresh Hx). now apply IH.
Qed.

(** X3.  A text none of whose lines is a header line is read as the empty
    notebook: nothing is raised, whatever the lines hold. *)
Theorem load_no_header (fresh : nat) (version data : string) :
  forallb (fun l => negb (is_header l)) (split nl_char data) = true ->
  V2.load fresh version data = Some (Ok (V2.mkNotebook version [])).
Proof.
  intros H. unfold V2.load.
  change (V2.load_loop (S (length (split nl_char data))) (split nl_char data) 0 [] fresh)
    with (run_load (split nl_char data) [] fresh).
  now rewrite (run_load_no_header _ [] fresh H).
Qed.

Lemma load_no_header_witness :
  V2.load 0 "4.5" ("import os" ++ nl ++ nl ++ "print(os.getcwd())" ++ nl) =
  Some (Ok (V2.mkNotebook "4.5" [])).
Proof.
  apply (load_no_header 0 "4.5"). vm_compute. reflexivity.
Defined.



(** X5.  A text that starts with a header line and has no empty line after
    it, so that its body runs to the end of the text without a final line
    terminator, raises [IndexError]. *)
Theorem load_unclosed_block (fresh : nat) (version header body : string) :
  header = V2.md_header \/ header = V2.code_header ->
  forallb (fun l => negb (String.eqb l EmptyString)) (split nl_char body) = true ->
  V2.load fresh version (header ++ nl ++ body) = Some (Raise IndexError).
Proof.
  intros Hh Hbody. unfold V2.load.
  assert (Hline : is_line header = true) by (destruct Hh; subst; reflexivity).
  rewrite (split_line header body Hline).
  pose proof (split_not_nil nl_char body) as Hne.
  set (lines := split nl_char body) in *.
  assert (Hraise : V2.read_body (S (length (header :: lines))) (header :: lines) 0 [] =
                   Some (Raise IndexError)).
  { apply read_body_open_raises; [|simpl; lia].
    intros j Hj Hnth. destruct j as [|j]; [lia|]. cbn [nth_error] in Hnth.
    apply nth_error_In in Hnth.
    rewrite forallb_forall in Hbody. specialize (Hbody _ Hnth).
    discriminate Hbody. }
  rewrite load_loop_unfold.
  destruct lines as [|l0 lines'] eqn:El; [congruence|]. rewrite <- El in *.
  replace (0 + 1 <? length (header :: lines))%nat with true
    by (rewrite El; reflexivity).
  cbn [nth_error].
  destruct Hh as [-> | ->].
  - rewrite String.eqb_refl, Hraise. reflexivity.
  - change (V2.code_header =? V2.md_header) with false.
    rewrite String.eqb_refl, Hraise. reflexivity.
Qed.

Lemma load_unclosed_block_witness :
  V2.load 0 "4.5" ("# %%" ++ nl ++ ("x = 1" ++ nl ++ "y = 2")) =
  Some (Raise IndexError).
Proof.
  apply (load_unclosed_block 0 "4.5" "# %%").
  - right. reflexivity.
  - vm_compute. reflexivity.
Defined.

(** ** Parsing what the serializer wrote *)

Lemma split_unlines (ls : list string) :
  forallb is_line ls = true ->
  split nl_char (unlines ls) = (ls ++ [EmptyString])%list.
Proof.
  induction ls as [|l ls IH]; intros H.
  - reflexivity.
  - simpl in H. apply andb_prop in H. destruct H as [Hl H].
    change (unlines (l :: ls)) with (l ++ nl ++ unlines ls).
    rewrite (split_line l _ Hl), (IH H). reflexivity.
Qed.

Lemma is_line_app (a b : string) :
  is_line (a ++ b) = is_line a && is_line b.
Proof.
  induction a as [|c a IH]; simpl; [reflexivity|].
  now rewrite IH, andb_assoc.
Qed.

(** The lines of a block are lines when its body lines are. *)
Lemma spec_block_lines (b : CellKind * list string) :
  forallb is_line (snd b) = true -> forallb is_line (spec_block b) = true.
Proof.
  destruct b as [[|] body]; simpl; intros H; [|exact H].
  induction body as [|l body IH]; [reflexivity|].
  simpl in H. apply andb_prop in H. destruct H as [Hl H].
  simpl. rewrite Hl. simpl. now apply IH.
Qed.

Lemma spec_layout_lines (blocks : list (CellKind * list string)) :
  forallb (fun b => forallb is_line (snd b)) blocks = true ->
  forallb is_line (spec_layout blocks) = true.
Proof.
  induction blocks as [|b blocks IH]; intros H; [reflexivity|].
  simpl in H. apply andb_prop in H. destruct H as [Hb H].
  destruct blocks as [|b' blocks'].
  - now apply spec_block_lines.
  - change (spec_layout (b :: b' :: blocks'))
      with (spec_block b ++ [EmptyString] ++ spec_layout (b' :: blocks'))%list.
    rewrite !forallb_app. rewrite (spec_block_lines b Hb), (IH H). reflexivity.
Qed.

(** The serialization of a document in the notebook file's convention, as
    a helper shared by the results below. *)
Lemma to_py_percent_blocks (v : string) (cs : list V2.Cell)
  (blocks : list (CellKind * list string)) :
  Forall2 ipynb_cell cs blocks ->
  NoDup (map V2.oid cs) ->
  V2.to_py_percent (V2.mkNotebook v cs) = unlines (spec_layout blocks).
Proof.
  intros Hcs Hnd. unfold V2.to_py_percent.
  destruct Hcs as [|c b cs blocks Hc Hcs]; [reflexivity|].
  cbn [V2.cells fold_left].
  rewrite (to_py_percent_rest _ cs blocks Hcs).
  - rewrite (to_py_percent_cell_block _ _ c b Hc).
    unfold V2.is_first; cbn [V2.cells]. rewrite Nat.eqb_refl.
    pose proof (spec_py_percent_cons b blocks) as E.
    unfold spec_py_percent in E. rewrite E. reflexivity.
  - intros c' Hc'. unfold V2.is_first; cbn [V2.cells].
    apply Nat.eqb_neq. intros E.
    inversion Hnd as [|x l Hnotin _]; subst.
    apply Hnotin. rewrite <- E. now apply in_map.
Qed.

Lemma map_slice_prefix (body : list string) :
  map (slice_from 2) (map (fun l => "# " ++ l) body) = body.
Proof.
  induction body as [|l body IH]; [reflexivity|].
  cbn [map]. rewrite IH. reflexivity.
Qed.

Lemma run_load_block (b : CellKind * list string) (rest : list string)
  (cells : list V2.Cell) (fresh : nat) :
  closed_block b = true ->
  run_load (spec_block b ++ EmptyString :: rest)%list cells fresh =
  run_load rest (cells ++ reparse fresh [b])%list (S fresh).
Proof.
  destruct b as [[|] body]; intros Hb.
  - change (spec_block (Markdown, body) ++ EmptyString :: rest)%list
      with (V2.md_header ::
              map (fun l => ("# " ++ l)%string) body ++ EmptyString :: rest)%list.
    rewrite run_load_markdown_block.
    + rewrite map_slice_prefix. reflexivity.
    + apply Forall_forall. intros l Hl. apply in_map_iff in Hl.
      destruct Hl as [l' [<- _]]. discriminate.
  - change (spec_block (Code, body) ++ EmptyString :: rest)%list
      with (V2.code_header :: body ++ EmptyString :: rest)%list.
    rewrite run_load_code_block; [reflexivity|].
    apply Forall_forall. intros l Hl. simpl in Hb.
    rewrite forallb_forall in Hb. specialize (Hb l Hl).
    apply negb_true_iff in Hb. now apply String.eqb_neq.
Qed.

Lemma run_load_layout (blocks : list (CellKind * list string)) :
  forall cells fresh,
    forallb closed_block blocks = true ->
    run_load (spec_layout blocks ++ [EmptyString])%list cells fresh =
    Some (Ok (cells ++ reparse fresh blocks)%list).
Proof.
  induction blocks as [|b blocks IH]; intros cells fresh H.
  - simpl. rewrite app_nil_r. reflexivity.
  - simpl in H. apply andb_prop in H. destruct H as [Hb H].
    destruct blocks as [|b' blocks'].
    + change (spec_layout [b] ++ [EmptyString])%list
        with (spec_block b ++ EmptyString :: [])%list.
      rewrite (run_load_block b [] cells fresh Hb).
      destruct b as [[|] body]; reflexivity.
    + change (spec_layout (b :: b' :: blocks'))
        with (spec_block b ++ [EmptyString] ++ spec_layout (b' :: blocks'))%list.
      rewrite <- app_assoc.
      change (([EmptyString] ++ spec_layout (b' :: blocks')) ++ [EmptyString])%list
        with (EmptyString :: (spec_layout (b' :: blocks') ++ [EmptyString]))%list.
      rewrite (run_load_block b _ cells fresh Hb).
      rewrite (IH _ (S fresh) H). rewrite <- app_assoc.
      destruct b as [[|] body]; reflexivity.
Qed.

Lemma load_after_to_py_percent (fresh : nat) (v v' : string) (cs : list V2.Cell)
  (blocks : list (CellKind * list string)) :
  Forall2 ipynb_cell cs blocks ->
  NoDup (map V2.oid cs) ->
  forallb (fun b => forallb is_line (snd b)) blocks = true ->
  forallb closed_block blocks = true ->
  V2.load fresh v' (V2.to_py_percent (V2.mkNotebook v cs)) =
  Some (Ok (V2.mkNotebook v' (reparse fresh blocks))).
Proof.
  intros Hcs Hnd Hlines Hclosed.
  rewrite (to_py_percent_blocks v cs blocks Hcs Hnd).
  unfold V2.load.
  rewrite (split_unlines _ (spec_layout_lines blocks Hlines)).
  change (V2.load_loop (S (length (spec_layout blocks ++ [EmptyString])%list))
            (spec_layout blocks ++ [EmptyString])%list 0 [] fresh)
    with (run_load (spec_layout blocks ++ [EmptyString])%list [] fresh).
  rewrite (run_load_layout blocks [] fresh Hclosed). reflexivity.
Qed.



Lemma reparse_oids (blocks : list (CellKind * list string)) :
  forall fresh, map V2.oid (reparse fresh blocks) = seq fresh (length blocks).
Proof.
  induction blocks as [|[[|] body] blocks IH]; intros fresh;
    [reflexivity| |]; simpl; now rewrite IH.
Qed.

Lemma one_line_markdown_blocks (cs : list V2.Cell) :
  forallb one_line_markdown cs = true ->
  Forall2 ipynb_cell cs (map block_of cs) /\
  forallb (fun b => forallb is_line (snd b)) (map block_of cs) = true /\
  forallb closed_block (map block_of cs) = true /\
  forall fresh,
    Forall2 ipynb_cell (reparse fresh (map block_of cs)) (map block_of cs) /\
    map V2.source (reparse fresh (map block_of cs)) = map V2.source cs /\
    map V2.is_code (reparse fresh (map block_of cs)) = map V2.is_code cs.
Proof.
  induction cs as [|c cs IH]; intros H.
  - repeat split; constructor.
  - simpl in H. apply andb_prop in H. destruct H as [Hc H].
    destruct (IH H) as [H1 [H2 [H3 H4]]].
    destruct c as [o i [[|l [|l' ls]]|t]|o i src e]; try discriminate Hc.
    simpl in Hc. repeat split.
    + constructor; [|exact H1].
      apply (ipynb_markdown o i [l]). discriminate.
    + simpl. now rewrite Hc, H2.
    + simpl. exact H3.
    + constructor; [|apply H4].
      apply (ipynb_markdown fresh "id" [l]). discriminate.
    + simpl. f_equal. apply H4.
    + simpl. f_equal. apply H4.
Qed.

(** X7.  The round trip is exact on documents made of pairwise distinct
    markdown cells whose source is one line of text: reading back the
    serialization gives cells of the same kinds with the same sources (ids
    are not kept), and serializing the result gives the same text again. *)
Theorem load_to_py_percent_one_line (fresh : nat) (v v' : string)
  (cs : list V2.Cell) :
  forallb one_line_markdown cs = true ->
  NoDup (map V2.oid cs) ->
  exists nb,
    V2.load fresh v' (V2.to_py_percent (V2.mkNotebook v cs)) = Some (Ok nb) /\
    map V2.source (V2.cells nb) = map V2.source cs /\
    map V2.is_code (V2.cells nb) = map V2.is_code cs /\
    V2.to_py_percent nb = V2.to_py_percent (V2.mkNotebook v cs).
Proof.
  intros Hcs Hnd.
  destruct (one_line_markdown_blocks cs Hcs) as [H1 [H2 [H3 H4]]].
  destruct (H4 fresh) as [H5 [H6 H7]].
  exists (V2.mkNotebook v' (reparse fresh (map block_of cs))).
  split; [now apply load_after_to_py_percent|].
  split; [exact H6|]. split; [exact H7|].
  rewrite (to_py_percent_blocks v cs _ H1 Hnd).
  apply to_py_percent_blocks; [exact H5|].
  rewrite reparse_oids. apply seq_NoDup.
Qed.

Lemma load_to_py_percent_one_line_witness :
  exists nb,
    V2.load 2 "4.5"
      (V2.to_py_percent
         (V2.mkNotebook "4.5"
            [V2.MarkdownCell 0 "a" (V2.SrcList ["# Title"]);
             V2.MarkdownCell 1 "b" (V2.SrcList ["Some text."])])) = Some (Ok nb) /\
    map V2.source (V2.cells nb) =
      map V2.source [V2.MarkdownCell 0 "a" (V2.SrcList ["# Title"]);
                     V2.MarkdownCell 1 "b" (V2.SrcList ["Some text."])] /\
    map V2.is_code (V2.cells nb) =
      map V2.is_code [V2.MarkdownCell 0 "a" (V2.SrcList ["# Title"]);
                      V2.MarkdownCell 1 "b" (V2.SrcList ["Some text."])] /\
    V2.to_py_percent nb =
      V2.to_py_percent
        (V2.mkNotebook "4.5"
           [V2.MarkdownCell 0 "a" (V2.SrcList ["# Title"]);
            V2.MarkdownCell 1 "b" (V2.SrcList ["Some text."])]).
Proof.
  apply (load_to_py_percent_one_line 2 "4.5" "4.5").
  - reflexivity.
  - simpl. repeat constructor; simpl; intuition lia.
Defined.

(** ** The first line of a serialization *)

Lemma to_py_percent_cell_appends (nb : V2.Notebook) (script : string)
  (c : V2.Cell) :
  exists tail, V2.to_py_percent_cell nb script c = script ++ tail.
Proof.
  destruct c as [o i src|o i src e]; unfold V2.to_py_percent_cell;
    destruct (V2.is_first nb _); eexists; rewrite !append_assoc; reflexivity.
Qed.

Lemma to_py_percent_fold_appends (nb : V2.Notebook) (cs : list V2.Cell) :
  forall script,
    exists tail, fold_left (V2.to_py_percent_cell nb) cs script = script ++ tail.
Proof.
  induction cs as [|c cs IH]; intros script; simpl.
  - exists EmptyString. now rewrite append_nil_r.
  - destruct (to_py_percent_cell_appends nb script c) as [t1 E1].
    destruct (IH (V2.to_py_percent_cell nb script c)) as [t2 E2].
    exists (t1 ++ t2). rewrite E2, E1, append_assoc. reflexivity.
Qed.

(** X8.  Whatever its cells hold, the serialization of a notebook that has
    a cell starts with the header line of its first cell: nothing, and in
    particular no blank line, comes before it. *)
Theorem to_py_percent_starts_with_header (v : string) (c : V2.Cell)
  (cs : list V2.Cell) :
  exists tail,
    V2.to_py_percent (V2.mkNotebook v (c :: cs)) =
    (if V2.is_code c then V2.code_header else V2.md_header) ++ nl ++ tail.
Proof.
  unfold V2.to_py_percent. cbn [V2.cells fold_left].
  destruct (to_py_percent_fold_appends (V2.mkNotebook v (c :: cs)) cs
              (V2.to_py_percent_cell (V2.mkNotebook v (c :: cs)) EmptyString c))
    as [t E].
  rewrite E. clear E.
  destruct c as [o i src|o i src e]; unfold V2.to_py_percent_cell, V2.is_first;
    cbn [V2.cells V2.oid V2.is_code]; rewrite Nat.eqb_refl;
    eexists; cbn [String.append]; rewrite !append_assoc; reflexivity.
Qed.

(** ** Codify-to-markdown and strip-markdown together *)

(** X9.  [Markdownizer.markdownize] keeps the version, the number of cells
    and their ids in order, and leaves no code cell, on every notebook. *)
Theorem markdownize_keeps_shape (fresh : nat) (nb : V2.Notebook) :
  V2.version (V2.markdownize fresh nb) = V2.version nb /\
  map V2.id (V2.cells (V2.markdownize fresh nb)) = map V2.id (V2.cells nb) /\
  length (V2.cells (V2.markdownize fresh nb)) = length (V2.cells nb) /\
  Forall (fun c => V2.is_code c = false) (V2.cells (V2.markdownize fresh nb)).
Proof. apply markdownize_shape. Qed.

Lemma markdownize_no_code (cs : list V2.Cell) :
  Forall (fun c => V2.is_code c = false) cs ->
  forall acc fresh,
    fold_left V2.markdownize_cell cs (acc, fresh) = ((acc ++ cs)%list, fresh).
Proof.
  induction 1 as [|c cs Hc Hcs IH]; intros acc fresh; simpl.
  - now rewrite app_nil_r.
  - rewrite Hc, IH, <- app_assoc. reflexivity.
Qed.

Lemma markdownize_fixed (fresh : nat) (nb : V2.Notebook) :
  Forall (fun c => V2.is_code c = false) (V2.cells nb) ->
  V2.markdownize fresh nb = nb.
Proof.
  intros H. destruct nb as [v cs]. unfold V2.markdownize.
  cbn [V2.cells V2.version] in *.
  now rewrite (markdownize_no_code cs H [] fresh).
Qed.

(** X10.  [markdownize] returns a notebook without code cells as it is,
    with the same cell objects. *)
Theorem markdownize_without_code (fresh : nat) (nb : V2.Notebook) :
  Forall (fun c => V2.is_code c = false) (V2.cells nb) ->
  V2.markdownize fresh nb = nb.
Proof. apply markdownize_fixed. Qed.

Lemma markdownize_without_code_witness :
  V2.markdownize 5
    (V2.mkNotebook "4.5" [V2.MarkdownCell 0 "a" (V2.SrcList ["# Title"])]) =
  V2.mkNotebook "4.5" [V2.MarkdownCell 0 "a" (V2.SrcList ["# Title"])].
Proof.
  apply (markdownize_without_code 5).
  repeat constructor.
Defined.

(** X11.  [markdownize] applied to its own result changes nothing. *)
Theorem markdownize_idempotent (fresh fresh' : nat) (nb : V2.Notebook) :
  V2.markdownize fresh' (V2.markdownize fresh nb) = V2.markdownize fresh nb.
Proof.
  apply markdownize_fixed. apply markdownize_shape.
Qed.

(** X12.  Stripping the markdown cells of a markdownized notebook leaves
    no cell at all: every code cell has become a markdown cell. *)
Theorem remove_markdown_cells_markdownize (fresh : nat) (nb : V2.Notebook) :
  V2.remove_markdown_cells (V2.markdownize fresh nb) =
  V2.mkNotebook (V2.version nb) [].
Proof.
  unfold V2.remove_markdown_cells.
  rewrite remove_markdown_cells_filter.
  destruct (markdownize_shape fresh nb) as [Hv [_ [_ Hmd]]].
  rewrite Hv. f_equal.
  induction Hmd as [|c cs Hc Hcs IH]; [reflexivity|].
  simpl. now rewrite Hc.
Qed.

(** ** Serializer: the version *)

(** X13.  When the first and the third character of the version are
    decimal digits, [Serializer.serialize] returns them as [nbformat] and
    [nbformat_minor], whatever the second character is and whatever follows
    the third; the cells come in order, a code cell with the six keys
    [cell_type], [execution_count], [id], [metadata], [outputs], [source],
    a markdown cell with [cell_type], [id], [metadata], [source]. *)
Theorem serialize_digits (major minor : nat) (sep : ascii) (rest : string)
  (cs : list V1.Cell) :
  major < 10 -> minor < 10 ->
  V1.serialize
    (V1.mkNotebook (String (digit major) (String sep (String (digit minor) rest)))
       cs) =
  Ok (V1.JDict [("cells", V1.JList (map cell_dict cs));
                ("metadata", V1.JDict []);
                ("nbformat", V1.JInt (Z.of_nat major));
                ("nbformat_minor", V1.JInt (Z.of_nat minor))]).
Proof. apply serialize_one_digit. Qed.

Lemma serialize_digits_witness :
  V1.serialize (V1.mkNotebook "4.57" (V1.cells hello_world_v1)) =
  Ok (V1.JDict [("cells", V1.JList (map cell_dict (V1.cells hello_world_v1)));
                ("metadata", V1.JDict []);
                ("nbformat", V1.JInt 4);
                ("nbformat_minor", V1.JInt 5)]).
Proof.
  apply (serialize_digits 4 5 "."%char "7" (V1.cells hello_world_v1)); lia.
Defined.




(** ** Outline: cells of several lines, cells without a line *)

Lemma getitem_nth {A : Type} (l : list A) (k : nat) (x : A) :
  nth_error l k = Some x -> getitem l (Z.of_nat k) = Ok x.
Proof.
  intros H. unfold getitem.
  replace (Z.of_nat k <? 0)%Z with false by (symmetry; apply Z.ltb_ge; lia).
  replace (Z.of_nat k <? 0)%Z with false by (symmetry; apply Z.ltb_ge; lia).
  now rewrite Nat2Z.id, H.
Qed.

Lemma getitem_last {A : Type} (l : list A) (z : A) :
  getitem (l ++ [z])%list (-1) = Ok z.
Proof.
  unfold getitem. change (-1 <? 0)%Z with true. cbv iota.
  rewrite length_app. simpl length.
  replace (-1 + Z.of_nat (length l + 1))%Z with (Z.of_nat (length l)) by lia.
  replace (Z.of_nat (length l) <? 0)%Z with false
    by (symmetry; apply Z.ltb_ge; lia).
  rewrite Nat2Z.id, nth_error_app2 by lia.
  now rewrite Nat.sub_diag.
Qed.

Lemma skipn_nth {A : Type} (l : list A) :
  forall k x, nth_error l k = Some x -> skipn k l = x :: skipn (S k) l.
Proof.
  induction l as [|y l IH]; intros [|k] x H; try discriminate H.
  - now injection H as ->.
  - apply (IH k x H).
Qed.

(** The loop over the lines [start], ..., [start + n - 1] of a source. *)
Lemma for_each_lines (src : list string) (p : string) :
  forall n start script,
    start + n <= length src ->
    for_each (seq start n)
      (fun script k =>
         line <- getitem src (Z.of_nat k) ;; Ok (script ++ (p ++ line)))
      script =
    Ok (script ++ cat (map (fun l => p ++ l) (firstn n (skipn start src)))).
Proof.
  induction n as [|n IH]; intros start script Hn.
  - simpl. now rewrite append_nil_r.
  - destruct (nth_error src start) as [x|] eqn:Ex;
      [|apply nth_error_None in Ex; lia].
    cbn [seq for_each]. rewrite (getitem_nth src start x Ex). cbn [bind].
    rewrite IH by lia.
    rewrite (skipn_nth src start x Ex). cbn [firstn map cat fold_right].
    fold (cat (map (fun l => p ++ l) (firstn n (skipn (S start) src)))).
    now rewrite append_assoc.
Qed.

Lemma firstn_app_all {A : Type} (l r : list A) : firstn (length l) (l ++ r) = l.
Proof.
  induction l as [|x l IH]; simpl; [now destruct r | now rewrite IH].
Qed.

Lemma outline_markdown_lines (script id a z type : string) (mid : list string) :
  V1.outline_cell script (V1.MarkdownCell id (a :: mid ++ [z]) type) =
  Ok ((((script ++ (nl ++ "└─▶ Markdown cell #" ++ id ++ nl))
          ++ ("    ┌  " ++ a))
         ++ cat (map (fun l => "    │  " ++ l) mid))
        ++ ("    └  " ++ z)).
Proof.
  unfold V1.outline_cell.
  replace (1 <? length (a :: mid ++ [z]))%nat with true
    by (symmetry; apply Nat.ltb_lt; simpl; rewrite length_app; simpl; lia).
  change (getitem (a :: mid ++ [z]) 0) with (Ok (A := string) a). cbn [bind].
  unfold range.
  replace (length (a :: mid ++ [z]) - 1 - 1) with (length mid)
    by (simpl; rewrite length_app; simpl; lia).
  rewrite (for_each_lines (a :: mid ++ [z]) "    │  " (length mid) 1)
    by (simpl; rewrite length_app; simpl; lia).
  cbn [bind skipn]. rewrite firstn_app_all.
  change (a :: mid ++ [z])%list with ((a :: mid) ++ [z])%list.
  rewrite getitem_last. reflexivity.
Qed.

Lemma outline_code_lines (script id a z type : string) (e : PyVal)
  (mid : list string) :
  V1.outline_cell script (V1.CodeCell e id (a :: mid ++ [z]) type) =
  Ok ((((script ++ (nl ++ "└─▶ Code cell #" ++ id ++ " (" ++ py_str e ++ ")" ++ nl))
          ++ ("    ┌  " ++ a))
         ++ cat (map (fun l => "    │  " ++ l) (mid ++ [z])))
        ++ ("    └  " ++ z)).
Proof.
  unfold V1.outline_cell.
  replace (1 <? length (a :: mid ++ [z]))%nat with true
    by (symmetry; apply Nat.ltb_lt; simpl; rewrite length_app; simpl; lia).
  change (getitem (a :: mid ++ [z]) 0) with (Ok (A := string) a). cbn [bind].
  unfold range.
  replace (length (a :: mid ++ [z]) - 1) with (length (mid ++ [z]))
    by (simpl; lia).
  rewrite (for_each_lines (a :: mid ++ [z]) "    │  " (length (mid ++ [z])) 1)
    by (simpl; lia).
  cbn [bind skipn]. rewrite firstn_all.
  change (a :: mid ++ [z])%list with ((a :: mid) ++ [z])%list.
  rewrite getitem_last. reflexivity.
Qed.

(** X15.  In the outline of a markdown cell of two lines or more, the
    first line follows the upper connector, each line strictly between the
    first and the last follows the bar, and the last line follows the lower
    connector; every line is written once, as it is, after four spaces and
    its connector. *)
Theorem outline_markdown_cell (script id a z type : string)
  (mid : list string) :
  V1.outline_cell script (V1.MarkdownCell id (a :: mid ++ [z]) type) =
  Ok ((((script ++ (nl ++ "└─▶ Markdown cell #" ++ id ++ nl))
          ++ ("    ┌  " ++ a))
         ++ cat (map (fun l => "    │  " ++ l) mid))
        ++ ("    └  " ++ z)).
Proof. apply outline_markdown_lines. Qed.

(** X16.  In the outline of a code cell of two lines or more the last
    line is written twice, once after the bar and once after the lower
    connector: the loop over the inner lines runs to the last index. *)
Theorem outline_code_cell_last_line_twice (script id a z type : string)
  (e : PyVal) (mid : list string) :
  V1.outline_cell script (V1.CodeCell e id (a :: mid ++ [z]) type) =
  Ok ((((script ++ (nl ++ "└─▶ Code cell #" ++ id ++ " (" ++ py_str e ++ ")" ++ nl))
          ++ ("    ┌  " ++ a))
         ++ cat (map (fun l => "    │  " ++ l) (mid ++ [z])))
        ++ ("    └  " ++ z)).
Proof. apply outline_code_lines. Qed.

Lemma outline_cell_has_source (script : string) (c : V1.Cell) :
  has_source c = true ->
  exists tail, V1.outline_cell script c = Ok (script ++ tail).
Proof.
  destruct c as [id [|a rest] t|e id [|a rest] t]; try discriminate; intros _.
  - destruct rest as [|b rest'].
    + eexists. unfold V1.outline_cell.
      change (1 <? length [a])%nat with false.
      change (getitem [a] 0) with (Ok (A := string) a). cbn [bind].
      rewrite append_assoc. reflexivity.
    + destruct (exists_last (l := b :: rest')) as [mid [z E]]; [discriminate|].
      rewrite E, outline_markdown_lines. eexists.
      rewrite !append_assoc. reflexivity.
  - destruct rest as [|b rest'].
    + eexists. unfold V1.outline_cell.
      change (1 <? length [a])%nat with false.
      change (getitem [a] 0) with (Ok (A := string) a). cbn [bind].
      rewrite append_assoc. reflexivity.
    + destruct (exists_last (l := b :: rest')) as [mid [z E]]; [discriminate|].
      rewrite E, outline_code_lines. eexists.
      rewrite !append_assoc. reflexivity.
Qed.

Lemma outline_cell_no_source (script : string) (c : V1.Cell) :
  has_source c = false -> V1.outline_cell script c = Raise IndexError.
Proof.
  destruct c as [id [|a rest] t|e id [|a rest] t]; try discriminate; intros _;
    reflexivity.
Qed.

Lemma outline_cells (cs : list V1.Cell) :
  forall script,
    if forallb has_source cs
    then exists tail, for_each cs V1.outline_cell script = Ok (script ++ tail)
    else for_each cs V1.outline_cell script = Raise IndexError.
Proof.
  induction cs as [|c cs IH]; intros script.
  - simpl. exists EmptyString. now rewrite append_nil_r.
  - cbn [forallb for_each]. destruct (has_source c) eqn:Hc.
    + destruct (outline_cell_has_source script c Hc) as [t1 E1].
      rewrite E1. cbn [bind andb]. specialize (IH (script ++ t1)).
      destruct (forallb has_source cs).
      * destruct IH as [t2 E2]. exists (t1 ++ t2).
        now rewrite E2, append_assoc.
      * exact IH.
    + rewrite (outline_cell_no_source script c Hc). reflexivity.
Qed.

(** X17.  [Outliner.outline] returns exactly when every cell has a source
    line, and its text then starts with the title line; when some cell has
    an empty source it raises [IndexError], from [cell.source[0]]. *)
Theorem outline_returns_or_raises (nb : V1.Notebook) :
  if forallb has_source (V1.cells nb)
  then exists tail,
         V1.outline nb = Ok (("Jupyter Notebook v" ++ V1.version nb) ++ tail)
  else V1.outline nb = Raise IndexError.
Proof. apply outline_cells. Qed.

(** ** Notebook constructor and serializer *)

Lemma str_of_Z_digit (d : nat) :
  d < 10 -> str_of_Z (Z.of_nat d) = String (digit d) EmptyString.
Proof.
  intros Hd. do 10 (destruct d as [|d]; [reflexivity|]). lia.
Qed.

Lemma as_strs_map (l : list string) : V1.as_strs (map V1.JStr l) = Some l.
Proof.
  induction l as [|x l IH]; simpl; [reflexivity | now rewrite IH].
Qed.

Lemma as_val_json_of_val (v : PyVal) : V1.as_val (V1.json_of_val v) = Some v.
Proof. destruct v; reflexivity. Qed.

Lemma init_cell_cell_dict (acc : list V1.Cell) (c : V1.Cell) :
  well_tagged c = true ->
  V1.init_cell acc (cell_dict c) = Some (Ok (acc ++ [c])%list).
Proof.
  destruct c as [id src t|e id src t]; intros Ht; apply String.eqb_eq in Ht;
    subst t; unfold V1.init_cell, V1.MarkdownCell_init, V1.CodeCell_init;
    cbn [cell_dict V1.subscript V1.dict_get String.eqb Ascii.eqb Bool.eqb
         V1.bind_read V1.eq_str V1.typed V1.as_str V1.as_lines];
    rewrite ?as_strs_map, ?as_val_json_of_val; reflexivity.
Qed.

Lemma init_cells_cell_dicts (cs : list V1.Cell) :
  forall acc,
    forallb well_tagged cs = true ->
    V1.init_cells (map cell_dict cs) acc = Some (Ok (acc ++ cs)%list).
Proof.
  induction cs as [|c cs IH]; intros acc H.
  - simpl. now rewrite app_nil_r.
  - simpl in H. apply andb_prop in H. destruct H as [Hc H].
    cbn [map V1.init_cells]. rewrite (init_cell_cell_dict acc c Hc).
    cbn [V1.bind_read]. rewrite (IH _ H), <- app_assoc. reflexivity.
Qed.

(** X18.  Serializing and constructing again gives the notebook back.  For
    a notebook whose version is one digit, a dot and one digit, and whose
    cells carry the tag of their class as [type], [Serializer.serialize]
    returns a dict from which [Notebook.__init__] builds the same version
    and the same cells, in order. *)
Theorem notebook_of_serialize (major minor : nat) (cs : list V1.Cell) :
  major < 10 -> minor < 10 ->
  forallb well_tagged cs = true ->
  exists j,
    V1.serialize
      (V1.mkNotebook
         (String (digit major) (String "."%char (String (digit minor) EmptyString)))
         cs) = Ok j /\
    V1.Notebook_init j =
    Some (Ok (V1.mkNotebook
                (String (digit major)
                   (String "."%char (String (digit minor) EmptyString)))
                cs)).
Proof.
  intros Ha Hb Hcs. eexists. split.
  - apply serialize_one_digit; assumption.
  - unfold V1.Notebook_init.
    cbn [V1.subscript V1.dict_get String.eqb Ascii.eqb Bool.eqb V1.bind_read
         V1.format V1.typed V1.as_list].
    rewrite (str_of_Z_digit major Ha), (str_of_Z_digit minor Hb).
    rewrite (init_cells_cell_dicts cs [] Hcs).
    reflexivity.
Qed.

Lemma notebook_of_serialize_witness :
  exists j,
    V1.serialize hello_world_v1 = Ok j /\
    V1.Notebook_init j = Some (Ok hello_world_v1).
Proof.
  apply (notebook_of_serialize 4 5 (V1.cells hello_world_v1)); [lia | lia |].
  reflexivity.
Defined.





Lemma dict_get_raises (d : list (string * V1.Json)) (k : string) (e : PyError) :
  V1.dict_get d k = Raise e -> e = KeyError.
Proof.
  induction d as [|[k' v] d IH]; simpl.
  - intros H. now injection H as <-.
  - destruct (String.eqb k' k); [discriminate | exact IH].
Qed.

(** X20.  [Notebook.__init__] raises [KeyError] on a dict without the key
    ['nbformat'] or without the key ['nbformat_minor'], whatever else the
    dict holds. *)
Theorem notebook_init_missing_format (d : list (string * V1.Json)) :
  V1.dict_get d "nbformat" = Raise KeyError \/
  V1.dict_get d "nbformat_minor" = Raise KeyError ->
  V1.Notebook_init (V1.JDict d) = Some (Raise KeyError).
Proof.
  intros H. unfold V1.Notebook_init. cbn [V1.subscript].
  destruct (V1.dict_get d "nbformat") as [a|e] eqn:Ea.
  - destruct H as [H|H]; [discriminate H|].
    cbn [V1.bind_read]. rewrite H. reflexivity.
  - apply dict_get_raises in Ea. subst e. reflexivity.
Qed.

Lemma notebook_init_missing_format_witness :
  V1.Notebook_init (V1.JDict [("cells", V1.JList []); ("nbformat", V1.JInt 4)]) =
  Some (Raise KeyError).
Proof.
  apply notebook_init_missing_format. right. reflexivity.
Defined.

(** X21.  [CodeCell.__init__] raises [KeyError] on a dict that lacks any
    of the keys ['execution_count'], ['id'], ['source'], ['cell_type']:
    no key has a default. *)
Theorem code_cell_init_missing_key (d : list (string * V1.Json)) (k : string) :
  In k ["execution_count"; "id"; "source"; "cell_type"] ->
  V1.dict_get d k = Raise KeyError ->
  V1.CodeCell_init (V1.JDict d) = Some (Raise KeyError).
Proof.
  intros Hk H. unfold V1.CodeCell_init. cbn [V1.subscript].
  destruct (V1.dict_get d "execution_count") as [v1|e] eqn:E1;
    [|apply dict_get_raises in E1; subst e; reflexivity].
  destruct (V1.dict_get d "id") as [v2|e] eqn:E2;
    [|apply dict_get_raises in E2; subst e; reflexivity].
  destruct (V1.dict_get d "source") as [v3|e] eqn:E3;
    [|apply dict_get_raises in E3; subst e; reflexivity].
  destruct (V1.dict_get d "cell_type") as [v4|e] eqn:E4;
    [|apply dict_get_raises in E4; subst e; reflexivity].
  exfalso. simpl in Hk.
  destruct Hk as [<-|[<-|[<-|[<-|[]]]]]; congruence.
Qed.

Lemma code_cell_init_missing_key_witness :
  V1.CodeCell_init
    (V1.JDict [("cell_type", V1.JStr "code"); ("id", V1.JStr "b777420a");
               ("metadata", V1.JDict []);
               ("source", V1.JList [V1.JStr "x = 1"])]) =
  Some (Raise KeyError).
Proof.
  apply (code_cell_init_missing_key _ "execution_count").
  - simpl. auto.
  - reflexivity.
Defined.

(** ** NotebookLoader *)

Lemma load_cell_shape (acc : list V2.Cell) (fresh : nat) (cell : V1.Json)
  (acc' : list V2.Cell) (fresh' : nat) :
  NotebookLoader.load_cell (acc, fresh) cell = Some (Ok (acc', fresh')) ->
  map V2.is_code acc' =
    (map V2.is_code acc ++ map tagged_code (filter supported [cell]))%list /\
  map V2.id acc' =
    (map V2.id acc ++ map dict_id (filter supported [cell]))%list.
Proof.
  unfold NotebookLoader.load_cell.
  cbn [filter]. unfold supported at 1 2.
  destruct (V1.subscript cell "cell_type") as [[t|e]|] eqn:Et; cbn [V1.bind_read];
    try discriminate.
  assert (Hnone : Some (Ok (acc, fresh)) = Some (Ok (acc', fresh')) ->
             map V2.is_code acc' = (map V2.is_code acc ++ map tagged_code [])%list /\
             map V2.id acc' = (map V2.id acc ++ map dict_id [])%list).
  { intros H. injection H as <- <-. simpl. now rewrite !app_nil_r. }
  destruct t as [|n|s|js|d]; cbn [V1.eq_str V1.bind_read orb];
    try exact Hnone.
  destruct (String.eqb s "markdown") eqn:Em.
  - cbn [orb].
    destruct (V1.subscript cell "id") as [[i|e]|] eqn:Ei; cbn [V1.bind_read];
      try discriminate.
    destruct (V1.subscript cell "source") as [[src|e]|]; cbn [V1.bind_read];
      try discriminate.
    destruct i as [|n|i|js|d]; cbn [V1.as_str V1.typed V1.bind_read];
      try discriminate.
    destruct (NotebookLoader.as_source src) as [src'|];
      cbn [V1.typed V1.bind_read]; try discriminate.
    apply String.eqb_eq in Em. subst s.
    intros H. injection H as <- _.
    rewrite !map_app. cbn [map]. unfold tagged_code, dict_id.
    rewrite Et, Ei. split; reflexivity.
  - cbn [orb]. destruct (String.eqb s "code") eqn:Ec; [|exact Hnone].
    destruct (V1.subscript cell "id") as [[i|e]|] eqn:Ei; cbn [V1.bind_read];
      try discriminate.
    destruct (V1.subscript cell "source") as [[src|e]|]; cbn [V1.bind_read];
      try discriminate.
    destruct (V1.subscript cell "execution_count") as [[ec|e]|];
      cbn [V1.bind_read]; try discriminate.
    destruct i as [|n|i|js|d]; cbn [V1.as_str V1.typed V1.bind_read];
      try discriminate.
    destruct (NotebookLoader.as_source src) as [src'|];
      cbn [V1.typed V1.bind_read]; try discriminate.
    destruct (V1.as_val ec) as [ec'|]; cbn [V1.typed V1.bind_read];
      try discriminate.
    intros H. injection H as <- _.
    rewrite !map_app. cbn [map]. unfold tagged_code, dict_id.
    rewrite Et, Ei. cbn [V1.eq_str]. rewrite Ec. split; reflexivity.
Qed.

Lemma load_cells_shape (cs : list V1.Json) :
  forall acc fresh acc' fresh',
    NotebookLoader.load_cells cs (acc, fresh) = Some (Ok (acc', fresh')) ->
    map V2.is_code acc' =
      (map V2.is_code acc ++ map tagged_code (filter supported cs))%list /\
    map V2.id acc' =
      (map V2.id acc ++ map dict_id (filter supported cs))%list.
Proof.
  induction cs as [|cell cs IH]; intros acc fresh acc' fresh' H.
  - injection H as <- <-. simpl. now rewrite !app_nil_r.
  - cbn [NotebookLoader.load_cells] in H.
    destruct (NotebookLoader.load_cell (acc, fresh) cell) as [[[a1 f1]|e]|] eqn:E1;
      cbn [V1.bind_read] in H; try discriminate.
    apply load_cell_shape in E1. destruct E1 as [K1 I1].
    apply IH in H. destruct H as [K2 I2].
    rewrite K2, I2, K1, I1. cbn [filter].
    destruct (supported cell); simpl; rewrite <- !app_assoc; split; reflexivity.
Qed.

(** X23.  [NotebookLoader.load] gives the notebook the version that
    [get_format_version] returns and builds one cell for each cell dict
    whose ['cell_type'] is ['markdown'] or ['code'], in the order of
    [get_cells], with the kind and the id of the dict; cells of any other
    type are dropped silently. *)
Theorem notebook_loader_load_cells
  (get_format_version : V1.Json -> Outcome string)
  (get_cells : V1.Json -> Outcome (list V1.Json))
  (fresh : nat) (ipynb : V1.Json) (v : string) (cs : list V1.Json)
  (nb : V2.Notebook) :
  get_format_version ipynb = Ok v ->
  get_cells ipynb = Ok cs ->
  NotebookLoader.load get_format_version get_cells fresh ipynb = Some (Ok nb) ->
  V2.version nb = v /\
  map V2.is_code (V2.cells nb) = map tagged_code (filter supported cs) /\
  map V2.id (V2.cells nb) = map dict_id (filter supported cs).
Proof.
  intros Hv Hc H. unfold NotebookLoader.load in H.
  rewrite Hv, Hc in H. cbn [V1.bind_read] in H.
  destruct (NotebookLoader.load_cells cs ([], fresh)) as [[[acc f]|e]|] eqn:E;
    cbn [V1.bind_read] in H; try discriminate.
  injection H as <-. cbn [V2.version V2.cells fst].
  apply load_cells_shape in E. destruct E as [K I].
  repeat split; assumption.
Qed.

Lemma notebook_loader_load_cells_witness :
  V2.version
    (V2.mkNotebook "4.5"
       [V2.MarkdownCell 0 "a9541506" (V2.SrcList ["Hello world!"]);
        V2.CodeCell 1 "b777420a" (V2.SrcList ["x = 1"]) (PyInt 1)]) = "4.5" /\
  map V2.is_code
    (V2.cells
       (V2.mkNotebook "4.5"
          [V2.MarkdownCell 0 "a9541506" (V2.SrcList ["Hello world!"]);
           V2.CodeCell 1 "b777420a" (V2.SrcList ["x = 1"]) (PyInt 1)])) =
    map tagged_code
      (filter supported
         [V1.JDict [("cell_type", V1.JStr "markdown"); ("id", V1.JStr "a9541506");
                    ("source", V1.JList [V1.JStr "Hello world!"])];
          V1.JDict [("cell_type", V1.JStr "raw"); ("id", V1.JStr "c0ffee00")];
          V1.JDict [("cell_type", V1.JStr "code"); ("execution_count", V1.JInt 1);
                    ("id", V1.JStr "b777420a");
                    ("source", V1.JList [V1.JStr "x = 1"])]]) /\
  map V2.id
    (V2.cells
       (V2.mkNotebook "4.5"
          [V2.MarkdownCell 0 "a9541506" (V2.SrcList ["Hello world!"]);
           V2.CodeCell 1 "b777420a" (V2.SrcList ["x = 1"]) (PyInt 1)])) =
    map dict_id
      (filter supported
         [V1.JDict [("cell_type", V1.JStr "markdown"); ("id", V1.JStr "a9541506");
                    ("source", V1.JList [V1.JStr "Hello world!"])];
          V1.JDict [("cell_type", V1.JStr "raw"); ("id", V1.JStr "c0ffee00")];
          V1.JDict [("cell_type", V1.JStr "code"); ("execution_count", V1.JInt 1);
                    ("id", V1.JStr "b777420a");
                    ("source", V1.JList [V1.JStr "x = 1"])]]).
Proof.
  apply (notebook_loader_load_cells
           (fun _ => Ok "4.5")
           (fun j => match j with V1.JList l => Ok l | _ => Raise KeyError end)
           0
           (V1.JList
              [V1.JDict [("cell_type", V1.JStr "markdown"); ("id", V1.JStr "a9541506");
                         ("source", V1.JList [V1.JStr "Hello world!"])];
               V1.JDict [("cell_type", V1.JStr "raw"); ("id", V1.JStr "c0ffee00")];
               V1.JDict [("cell_type", V1.JStr "code"); ("execution_count", V1.JInt 1);
                         ("id", V1.JStr "b777420a");
                         ("source", V1.JList [V1.JStr "x = 1"])]])).
  - reflexivity.
  - reflexivity.
  - vm_compute. reflexivity.
Defined.
